(** * Plate scanner: capture workflow, history serialization, recognition flow

    A shallow embedding of the scan-capture-and-confirmation workflow of the
    [CameraScanner] component, of the [ScanHistory] summary request and of the
    [initiateScanWithPrompt] flow, with the properties the specification
    states about them.

    Conventions.
    - A JavaScript string is a [string]; its characters are code units of the
      ASCII range (plates, data URIs and the fixed texts of the components all
      are). [trim] and [toUpperCase] are the ECMAScript operations on that
      range.
    - A React state cell is a record field; a setter call is a record update,
      applied in program order. A handler reads the state of the last
      render, which is the current state whenever a handler is entered.
    - An [async] handler is cut at its [await]: the part before it runs on the
      triggering event, the part after it when the awaited call settles.
    - Everything a handler does to the outside (toasts, the [onScan] callback,
      calls to the server flows) is recorded in the [World]. *)

From Stdlib Require Import ZArith Ascii String.
From stdpp Require Import base option list strings gmap.
From Stdlib Require Import Lia.

Local Open Scope Z_scope.

(** ** ECMAScript strings *)

Module JS.

(** WhiteSpace and LineTerminator code units below 128:
    TAB, LF, VT, FF, CR and SPACE. *)
Definition isWhiteSpace (c : ascii) : bool :=
  let n := nat_of_ascii c in
  ((9 <=? n) && (n <=? 13) || (n =? 32))%nat.

(** [String.prototype.trimStart]. *)
Fixpoint trimStart (s : string) : string :=
  match s with
  | EmptyString => EmptyString
  | String c r => if isWhiteSpace c then trimStart r else s
  end.

(** [String.prototype.trimEnd]: a white-space character is dropped when
    nothing but white space follows it. *)
Fixpoint trimEnd (s : string) : string :=
  match s with
  | EmptyString => EmptyString
  | String c r =>
      match trimEnd r with
      | EmptyString => if isWhiteSpace c then EmptyString else String c EmptyString
      | r' => String c r'
      end
  end.

(** [String.prototype.trim]. *)
Definition trim (s : string) : string := trimEnd (trimStart s).

(** Nothing but white space. *)
Fixpoint blank (s : string) : bool :=
  match s with
  | EmptyString => true
  | String c r => isWhiteSpace c && blank r
  end.

(** Upper-case mapping of one code unit: [a]..[z] go to [A]..[Z]. *)
Definition upper (c : ascii) : ascii :=
  let n := nat_of_ascii c in
  if ((97 <=? n) && (n <=? 122))%nat then ascii_of_nat (n - 32) else c.

(** [String.prototype.toUpperCase]. *)
Fixpoint toUpperCase (s : string) : string :=
  match s with
  | EmptyString => EmptyString
  | String c r => String (upper c) (toUpperCase r)
  end.

(** ToBoolean of a string: only the empty string is falsy. *)
Definition truthy (s : string) : bool :=
  match s with EmptyString => false | String _ _ => true end.

(** ToBoolean of a [string | null]. *)
Definition truthy_opt (o : option string) : bool :=
  match o with None => false | Some s => truthy s end.

(** [Array.prototype.join] on an array of strings. *)
Fixpoint join (sep : string) (l : list string) : string :=
  match l with
  | [] => EmptyString
  | [x] => x
  | x :: rest => x +:+ sep +:+ join sep rest
  end.

End JS.

(** ** The recognition flow (initiate-scan-with-prompt.ts)

    Genkit checks the input of a flow against its [inputSchema] before the
    body runs and the result against its [outputSchema] after it; a failed
    check throws. A property that is absent reads as [undefined]. The prompt
    call, which reaches the hosted model, is a parameter. *)

Module Flow.

Inductive value :=
| VUndefined
| VNull
| VBool (b : bool)
| VNumber (n : Z)
| VString (s : string).

(** The zod schemas the flows are built from. *)
Inductive zod :=
| ZString                 (* z.string() *)
| ZOptional (inner : zod) (* .optional() *).

Fixpoint accepts (z : zod) (v : value) : bool :=
  match z with
  | ZString => match v with VString _ => true | _ => false end
  | ZOptional inner =>
      match v with VUndefined => true | _ => accepts inner v end
  end.

Inductive error :=
| InvalidInput    (* the input does not conform to the input schema *)
| ServiceFailure  (* the prompt call threw *)
| InvalidOutput   (* the output does not conform to the output schema *).

(** Lines 18-21 and 71-74: the output, the same in both revisions. *)
Record InitiateScanWithPromptOutput := {
  plateNumber : value;
}.

Definition InitiateScanWithPromptOutputSchema
    (o : InitiateScanWithPromptOutput) : bool :=
  accepts ZString (plateNumber o).

(** What the prompt call does: it throws, or it yields [output], which is
    null when the model gave nothing usable. *)
Inductive reply :=
| Threw
| Output (output : option InitiateScanWithPromptOutput).

(** [ai.defineFlow({inputSchema, outputSchema}, async input => {
       const {output} = await prompt(input); return output!; })] *)
Definition defineFlow {Input : Type} (inputSchema : Input -> bool)
    (outputSchema : InitiateScanWithPromptOutput -> bool)
    (prompt : Input -> reply) (input : Input)
    : error + InitiateScanWithPromptOutput :=
  if inputSchema input then
    match prompt input with
    | Threw => inl ServiceFailure
    | Output None => inl InvalidOutput
    | Output (Some o) => if outputSchema o then inr o else inl InvalidOutput
    end
  else inl InvalidInput.

(** Lines 1-52: the text-only revision. *)
Module Text.

Record InitiateScanWithPromptInput := {
  prompt : value;
}.

Definition InitiateScanWithPromptInputSchema
    (i : InitiateScanWithPromptInput) : bool :=
  accepts ZString (prompt i).

Definition initiateScanWithPrompt
    (model : InitiateScanWithPromptInput -> reply)
    (input : InitiateScanWithPromptInput)
    : error + InitiateScanWithPromptOutput :=
  defineFlow InitiateScanWithPromptInputSchema
    InitiateScanWithPromptOutputSchema model input.

End Text.

(** Lines 54-111: the image revision. *)
Module Image.

Record InitiateScanWithPromptInput := {
  prompt : value;
  photoDataUri : value;
}.

Definition InitiateScanWithPromptInputSchema
    (i : InitiateScanWithPromptInput) : bool :=
  accepts (ZOptional ZString) (prompt i) && accepts ZString (photoDataUri i).

Definition initiateScanWithPrompt
    (model : InitiateScanWithPromptInput -> reply)
    (input : InitiateScanWithPromptInput)
    : error + InitiateScanWithPromptOutput :=
  defineFlow InitiateScanWithPromptInputSchema
    InitiateScanWithPromptOutputSchema model input.

(** The two inputs the adapter of the specification speaks of. *)
Definition hint_present (i : InitiateScanWithPromptInput) : bool :=
  match prompt i with VString _ => true | _ => false end.

Definition image_present (i : InitiateScanWithPromptInput) : bool :=
  match photoDataUri i with VString _ => true | _ => false end.

End Image.

(** A call a component makes, to the flow of its revision. *)
Inductive call :=
| TextCall (input : Text.InitiateScanWithPromptInput)
| ImageCall (input : Image.InitiateScanWithPromptInput).

End Flow.

(** ** State shared by the scanner components *)

(** A notification raised through [useToast]; [destructive] is
    [variant: "destructive"]. *)
Record Toast := {
  title : string;
  description : string;
  destructive : bool;
}.

(** A device track is live until [stop()] is called on it. *)
Inductive readyState := live | ended.

#[global] Instance readyState_eq_dec : EqDecision readyState.
Proof. solve_decision. Defined.

(** A [MediaStream] refers to its tracks; the tracks themselves live in the
    browser, shared by every reference to the stream. *)
Abbreviation MediaStream := (list nat).
Abbreviation Tracks := (gmap nat readyState).

(** [ScanResult] is imported from scanner-layout, which is not among the
    sources; these are the three fields scan-history.tsx reads.
    [timestamp] is a time value, milliseconds since the epoch. *)
Record ScanResult := {
  id : nat;
  plateNumber : string;
  timestamp : Z;
}.

(** The refs and the four [useState] cells of [CameraScanner]. A ref is
    modelled by whether its [current] is set. *)
Record Scanner := {
  videoRef : bool;
  canvasRef : bool;
  stream : option MediaStream;
  isScanning : bool;
  detectedPlate : option string;
  isCapturing : bool;
}.

Definition setStream (v : option MediaStream) (s : Scanner) : Scanner :=
  {| videoRef := videoRef s; canvasRef := canvasRef s; stream := v;
     isScanning := isScanning s; detectedPlate := detectedPlate s;
     isCapturing := isCapturing s |}.

Definition setIsScanning (v : bool) (s : Scanner) : Scanner :=
  {| videoRef := videoRef s; canvasRef := canvasRef s; stream := stream s;
     isScanning := v; detectedPlate := detectedPlate s;
     isCapturing := isCapturing s |}.

Definition setDetectedPlate (v : option string) (s : Scanner) : Scanner :=
  {| videoRef := videoRef s; canvasRef := canvasRef s; stream := stream s;
     isScanning := isScanning s; detectedPlate := v;
     isCapturing := isCapturing s |}.

Definition setIsCapturing (v : bool) (s : Scanner) : Scanner :=
  {| videoRef := videoRef s; canvasRef := canvasRef s; stream := stream s;
     isScanning := isScanning s; detectedPlate := detectedPlate s;
     isCapturing := v |}.

(** The component together with what it has done to the outside. *)
Record World := {
  ui : Scanner;
  toasts : list Toast;                     (* raised so far, oldest first *)
  history : list ScanResult;               (* the History Log of the parent *)
  pending : list Flow.call;                (* recognition calls not settled *)
}.

Definition update (f : Scanner -> Scanner) (w : World) : World :=
  {| ui := f (ui w); toasts := toasts w; history := history w;
     pending := pending w |}.

Definition toast (t : Toast) (w : World) : World :=
  {| ui := ui w; toasts := toasts w ++ [t]; history := history w;
     pending := pending w |}.

Definition call (input : Flow.call) (w : World) : World :=
  {| ui := ui w; toasts := toasts w; history := history w;
     pending := pending w ++ [input] |}.

Definition with_history (f : list ScanResult -> list ScanResult)
    (w : World) : World :=
  {| ui := ui w; toasts := toasts w; history := f (history w);
     pending := pending w |}.

(** How the awaited [initiateScanWithPrompt] call settles. *)
Inductive settled :=
| Fulfilled (plateNumber : string)
| Rejected.

(** Modelled from the spec: the History Log, which scanner-layout owns and
    which is not among the sources. [append] inserts at the end, with no
    deduplication and no merge. *)
Module HistoryLog.
Definition append (r : ScanResult) (log : list ScanResult) : list ScanResult :=
  log ++ [r].
End HistoryLog.

(** Modelled from the spec: the [onScan] callback the parent passes down. The
    accepted plate is promoted to a record with a fresh identifier and the
    current time, and appended to the History Log. *)
Definition onScan (fresh : nat) (now : Z) (plate : string)
    (log : list ScanResult) : list ScanResult :=
  HistoryLog.append {| id := fresh; plateNumber := plate; timestamp := now |} log.

(** [savePlate], the Save button: the same text in camera-scanner.tsx
    (105-114), unnamed/part_000 (89-98), unnamed/part_001 (109-118) and the
    scanner of scan-history.tsx (252-261). *)
Definition savePlate (fresh : nat) (now : Z) (w : World) : World :=
  match detectedPlate (ui w) with
  | Some plate =>
      if JS.truthy plate then
        toast {| title := "Saved";
                 description := "Plate " +:+ plate +:+ " added to history.";
                 destructive := false |}
          (update (setDetectedPlate None)
             (with_history (onScan fresh now plate) w))
      else w
  | None => w
  end.

(** The Redo button: [onClick={() => setDetectedPlate(null)}]. *)
Definition redo (w : World) : World := update (setDetectedPlate None) w.

(** ** [handleScan]

    The [catch] and [finally] blocks are the same text in every revision of
    the component. *)

Definition handleScan_catch (w : World) : World :=
  toast {| title := "Scan Failed";
           description := "An error occurred during OCR scanning.";
           destructive := true |} w.

Definition handleScan_finally (w : World) : World :=
  update (setIsCapturing false) (update (setIsScanning false) w).

Definition plateDetected (plateNumber : string) : Toast :=
  {| title := "Plate Detected";
     description := "Identified: " +:+ plateNumber;
     destructive := false |}.

(** camera-scanner.tsx, lines 55-103. [ctx] tells whether
    [canvas.getContext('2d')] gives a context, [photoDataUri] is what
    [canvas.toDataURL('image/jpeg', 0.8)] gives for the frame drawn. *)
Module CameraScanner.

Definition request (photoDataUri : string) : Flow.call :=
  Flow.ImageCall
    {| Flow.Image.photoDataUri := Flow.VString photoDataUri;
       Flow.Image.prompt := Flow.VString
         "Extract the license plate number from anywhere in this image." |}.

Definition noPlateFound : Toast :=
  {| title := "No Plate Found";
     description := "Could not identify a license plate. Try a different angle or better lighting.";
     destructive := true |}.

(** Up to the [await]. *)
Definition handleScan_start (ctx : bool) (photoDataUri : string)
    (w : World) : World :=
  if isCapturing (ui w) || negb (videoRef (ui w)) || negb (canvasRef (ui w))
  then w
  else
    let w := update (setIsScanning true) (update (setIsCapturing true) w) in
    if ctx then call (request photoDataUri) w
    else handleScan_finally (handleScan_catch w).

(** The rest of the [try] block, once the call has given [result]. *)
Definition handleScan_then (plateNumber : string) (w : World) : World :=
  if JS.truthy plateNumber
     && (0 <? String.length (JS.trim plateNumber))%nat
  then toast (plateDetected plateNumber)
         (update (setDetectedPlate (Some plateNumber)) w)
  else toast noPlateFound w.

(** From the settling of the call to the end of the [try]/[catch]. *)
Definition handleScan_settled (o : settled) (w : World) : World :=
  match o with
  | Fulfilled plateNumber => handleScan_then plateNumber w
  | Rejected => handleScan_catch w
  end.

Definition handleScan_resume (o : settled) (w : World) : World :=
  handleScan_finally (handleScan_settled o w).

End CameraScanner.

(** The [CameraScanner] that follows [ScanHistory] in scan-history.tsx,
    lines 203-250: no prompt in the request, and the plate is upper-cased
    when it is staged. *)
Module UpperScanner.

Definition request (photoDataUri : string) : Flow.call :=
  Flow.ImageCall
    {| Flow.Image.photoDataUri := Flow.VString photoDataUri;
       Flow.Image.prompt := Flow.VUndefined |}.

Definition noPlateFound : Toast := CameraScanner.noPlateFound.

Definition handleScan_start (ctx : bool) (photoDataUri : string)
    (w : World) : World :=
  if isCapturing (ui w) || negb (videoRef (ui w)) || negb (canvasRef (ui w))
  then w
  else
    let w := update (setIsScanning true) (update (setIsCapturing true) w) in
    if ctx then call (request photoDataUri) w
    else handleScan_finally (handleScan_catch w).

Definition handleScan_then (plateNumber : string) (w : World) : World :=
  if JS.truthy plateNumber
     && (0 <? String.length (JS.trim plateNumber))%nat
  then toast (plateDetected plateNumber)
         (update (setDetectedPlate (Some (JS.toUpperCase plateNumber))) w)
  else toast noPlateFound w.

Definition handleScan_settled (o : settled) (w : World) : World :=
  match o with
  | Fulfilled plateNumber => handleScan_then plateNumber w
  | Rejected => handleScan_catch w
  end.

Definition handleScan_resume (o : settled) (w : World) : World :=
  handleScan_finally (handleScan_settled o w).

End UpperScanner.

(** unnamed/part_001, lines 55-107: [handleScan] of camera-scanner.tsx with
    another prompt and another "No Plate Found" text. *)
Module FlippedScanner.

Definition request (photoDataUri : string) : Flow.call :=
  Flow.ImageCall
    {| Flow.Image.photoDataUri := Flow.VString photoDataUri;
       Flow.Image.prompt := Flow.VString
         "Identify the license plate in this image." |}.

Definition noPlateFound : Toast :=
  {| title := "No Plate Found";
     description := "Could not clearly identify a license plate. Try moving closer.";
     destructive := true |}.

Definition handleScan_start (ctx : bool) (photoDataUri : string)
    (w : World) : World :=
  if isCapturing (ui w) || negb (videoRef (ui w)) || negb (canvasRef (ui w))
  then w
  else
    let w := update (setIsScanning true) (update (setIsCapturing true) w) in
    if ctx then call (request photoDataUri) w
    else handleScan_finally (handleScan_catch w).

Definition handleScan_then (plateNumber : string) (w : World) : World :=
  if JS.truthy plateNumber
     && (0 <? String.length (JS.trim plateNumber))%nat
  then toast (plateDetected plateNumber)
         (update (setDetectedPlate (Some plateNumber)) w)
  else toast noPlateFound w.

Definition handleScan_settled (o : settled) (w : World) : World :=
  match o with
  | Fulfilled plateNumber => handleScan_then plateNumber w
  | Rejected => handleScan_catch w
  end.

Definition handleScan_resume (o : settled) (w : World) : World :=
  handleScan_finally (handleScan_settled o w).

End FlippedScanner.

(** unnamed/part_000, lines 50-87: the demo revision. The call carries a
    prompt and no frame, and an empty answer is replaced by a mock plate.
    [pick] is [Math.floor(Math.random() * mockPlates.length)]. *)
Module DemoScanner.

Definition request : Flow.call :=
  Flow.TextCall
    {| Flow.Text.prompt := Flow.VString
         "Analyze the current vehicle in view and identify its license plate number." |}.

Definition mockPlates : list string :=
  ["ABC-1234"; "XYZ-9876"; "DL-5SB-1029"; "CA-992-PX"; "TX-B45-920"].

Definition handleScan_start (w : World) : World :=
  if isCapturing (ui w) then w
  else
    call request
      (update (setIsScanning true) (update (setIsCapturing true) w)).

Definition handleScan_then (pick : nat) (plateNumber : string)
    (w : World) : World :=
  if JS.truthy plateNumber
  then toast (plateDetected plateNumber)
         (update (setDetectedPlate (Some plateNumber)) w)
  else update (setDetectedPlate (mockPlates !! pick)) w.

Definition handleScan_settled (pick : nat) (o : settled) (w : World) : World :=
  match o with
  | Fulfilled plateNumber => handleScan_then pick plateNumber w
  | Rejected => handleScan_catch w
  end.

Definition handleScan_resume (pick : nat) (o : settled) (w : World) : World :=
  handleScan_finally (handleScan_settled pick o w).

End DemoScanner.

(** ** The workflow as a machine

    The four scanner components differ in [handleScan] only. *)

Inductive component :=
| CameraScannerTsx  (* camera-scanner.tsx *)
| ScanHistoryTsx    (* the scanner in scan-history.tsx *)
| Part000           (* unnamed/part_000 *)
| Part001           (* unnamed/part_001 *).

Definition handleScan_start (c : component) (ctx : bool)
    (photoDataUri : string) (w : World) : World :=
  match c with
  | CameraScannerTsx => CameraScanner.handleScan_start ctx photoDataUri w
  | ScanHistoryTsx => UpperScanner.handleScan_start ctx photoDataUri w
  | Part000 => DemoScanner.handleScan_start w
  | Part001 => FlippedScanner.handleScan_start ctx photoDataUri w
  end.

Definition handleScan_settled (c : component) (pick : nat) (o : settled)
    (w : World) : World :=
  match c with
  | CameraScannerTsx => CameraScanner.handleScan_settled o w
  | ScanHistoryTsx => UpperScanner.handleScan_settled o w
  | Part000 => DemoScanner.handleScan_settled pick o w
  | Part001 => FlippedScanner.handleScan_settled o w
  end.

(** The notification a component raises when no plate was found; the demo
    revision has none. *)
Definition noPlateFound (c : component) : option Toast :=
  match c with
  | CameraScannerTsx => Some CameraScanner.noPlateFound
  | ScanHistoryTsx => Some UpperScanner.noPlateFound
  | Part000 => None
  | Part001 => Some FlippedScanner.noPlateFound
  end.

Definition handleScan_resume (c : component) (pick : nat) (o : settled)
    (w : World) : World :=
  handleScan_finally (handleScan_settled c pick o w).

(** The oldest call in flight leaves the set of pending calls. *)
Definition take_pending (w : World) : World :=
  {| ui := ui w; toasts := toasts w; history := history w;
     pending := tail (pending w) |}.

(** What can happen to a mounted component. A call can settle only if one is
    in flight. *)
Inductive event :=
| Trigger (ctx : bool) (photoDataUri : string) (* the scan button *)
| Settle (o : settled) (pick : nat)            (* the awaited call settles *)
| Save (fresh : nat) (now : Z)                 (* the Save button *)
| Redo                                         (* the Redo button *).

Definition step (c : component) (w : World) (e : event) : World :=
  match e with
  | Trigger ctx photoDataUri => handleScan_start c ctx photoDataUri w
  | Settle o pick =>
      match pending w with
      | [] => w
      | _ :: _ => handleScan_resume c pick o (take_pending w)
      end
  | Save fresh now => savePlate fresh now w
  | Redo => redo w
  end.

Definition run (c : component) (w : World) (es : list event) : World :=
  fold_left (step c) es w.

(** The component after its first render, under a parent whose log is [log]. *)
Definition mounted (video canvas : bool) (log : list ScanResult) : World :=
  {| ui := {| videoRef := video; canvasRef := canvas; stream := None;
              isScanning := false; detectedPlate := None;
              isCapturing := false |};
     toasts := []; history := log; pending := [] |}.

(** The states of section 4.2, read off the component. [Failed] is
    transient: it is the point inside a run of [handleScan] at which a
    destructive notification has been raised and the flags are not yet
    reset. *)
Inductive phase := Idle | Capturing | Staged | Failed.

Definition phase_of (w : World) : phase :=
  if isCapturing (ui w) then Capturing
  else if JS.truthy_opt (detectedPlate (ui w)) then Staged
  else Idle.

(** The notifications raised between [w0] and a later [w1]. *)
Definition surfaced (w0 w1 : World) : list Toast :=
  drop (length (toasts w0)) (toasts w1).

(** The phase at [w1], a point of a handler run entered at [w0]. *)
Definition phase_in (w0 w1 : World) : phase :=
  if isCapturing (ui w1) && existsb destructive (surfaced w0 w1) then Failed
  else phase_of w1.

(** The phases a settling call takes the workflow through: on arrival, after
    the [try]/[catch], after the [finally]. *)
Definition settle_phases (c : component) (pick : nat) (o : settled)
    (w : World) : list phase :=
  let w1 := handleScan_settled c pick o w in
  [phase_of w; phase_in w w1; phase_of (handleScan_finally w1)].

(** ** Camera acquisition and release (the mount effect, lines 24-53) *)

Module Lifecycle.

Definition cameraError : Toast :=
  {| title := "Camera Error";
     description := "Could not access camera. Please check permissions.";
     destructive := true |}.

(** Every track of [s] gets the state [v]. *)
Definition mark (v : readyState) (s : MediaStream) (tr : Tracks) : Tracks :=
  fold_left (fun acc t => <[t := v]> acc) s tr.

(** The cleanup: [stream?.getTracks().forEach((track) => track.stop())],
    for the value the name [stream] has in the closure. *)
Definition cleanup (stream : option MediaStream) (tr : Tracks) : Tracks :=
  match stream with
  | None => tr
  | Some s => mark ended s tr
  end.

(** A component instance: the component, the [stream] binding of the render
    whose effect returned the cleanup React holds, the device tracks, and
    whether the component is still mounted. *)
Record Instance := {
  world : World;
  closure_stream : option MediaStream;
  tracks : Tracks;
  alive : bool;
}.

(** The dependency list of the effect is empty: it runs once, after the
    first render, and its cleanup closes over the [stream] of that
    render. *)
Definition mount (video canvas : bool) (log : list ScanResult)
    (tr : Tracks) : Instance :=
  let w := mounted video canvas log in
  {| world := w; closure_stream := stream (ui w); tracks := tr;
     alive := true |}.

(** [getUserMedia] resolved with a stream of live tracks (lines 34-37). The
    effect is not run again; a state update after unmount is dropped. *)
Definition setupCamera_resolved (userStream : MediaStream)
    (i : Instance) : Instance :=
  {| world := if alive i
              then update (setStream (Some userStream)) (world i)
              else world i;
     closure_stream := closure_stream i;
     tracks := mark live userStream (tracks i);
     alive := alive i |}.

(** [getUserMedia] rejected (lines 38-45). *)
Definition setupCamera_rejected (i : Instance) : Instance :=
  {| world := toast cameraError (world i);
     closure_stream := closure_stream i;
     tracks := tracks i;
     alive := alive i |}.

(** Anything the user does while the component is mounted. *)
Definition interact (c : component) (es : list event)
    (i : Instance) : Instance :=
  {| world := if alive i then run c (world i) es else world i;
     closure_stream := closure_stream i;
     tracks := tracks i;
     alive := alive i |}.

(** Unmount: React calls the cleanup of the mount effect. *)
Definition unmount (i : Instance) : Instance :=
  {| world := world i;
     closure_stream := closure_stream i;
     tracks := if alive i then cleanup (closure_stream i) (tracks i)
               else tracks i;
     alive := false |}.

(** The life of an instance after its mount. *)
Inductive life :=
| Resolved (userStream : MediaStream)
| Refused
| User (es : list event)
| Unmount.

Definition life_step (c : component) (i : Instance) (l : life) : Instance :=
  match l with
  | Resolved userStream => setupCamera_resolved userStream i
  | Refused => setupCamera_rejected i
  | User es => interact c es i
  | Unmount => unmount i
  end.

Definition life_run (c : component) (i : Instance) (ls : list life)
    : Instance :=
  fold_left (life_step c) ls i.

(** The tracks of a stream that are still live. *)
Definition held (s : MediaStream) (tr : Tracks) : list nat :=
  filter (fun t => tr !! t = Some live) s.

End Lifecycle.

(** ** Dates: [new Date(t)] and date-fns [format]

    [format] reads a date through its local-time getters. [LocalTZA t] is the
    offset of local time from UTC, in milliseconds, at time value [t]; it
    belongs to the host. The calendar fields are those of the proleptic
    Gregorian calendar, computed in closed form. *)

Module DateFns.

Definition msPerDay : Z := 86400000.

(** A [Date] holds a time value or is invalid; [new Date(t)] is valid
    within 8.64e15 ms of the epoch. *)
Definition isValid (t : Z) : bool :=
  (-8640000000000000 <=? t) && (t <=? 8640000000000000).

(** Year, month (1-12) and day of month of a day number (days since
    1970-01-01). *)
Definition civil (day : Z) : Z * Z * Z :=
  let z := day + 719468 in
  let era := z / 146097 in
  let doe := z mod 146097 in
  let yoe := (doe - doe / 1460 + doe / 36524 - doe / 146096) / 365 in
  let doy := doe - (365 * yoe + yoe / 4 - yoe / 100) in
  let mp := (5 * doy + 2) / 153 in
  let d := doy - (153 * mp + 2) / 5 + 1 in
  let m := if mp <? 10 then mp + 3 else mp - 9 in
  let y := yoe + era * 400 in
  (if m <=? 2 then y + 1 else y, m, d).

Section Host.
Variable LocalTZA : Z -> Z.

Definition LocalTime (t : Z) : Z := t + LocalTZA t.

Definition getFullYear (t : Z) : Z := fst (fst (civil (LocalTime t / msPerDay))).
Definition getMonth (t : Z) : Z := snd (fst (civil (LocalTime t / msPerDay))) - 1.
Definition getDate (t : Z) : Z := snd (civil (LocalTime t / msPerDay)).
Definition getHours (t : Z) : Z := (LocalTime t / 3600000) mod 24.
Definition getMinutes (t : Z) : Z := (LocalTime t / 60000) mod 60.
Definition getSeconds (t : Z) : Z := (LocalTime t / 1000) mod 60.
End Host.

Definition digit (d : Z) : ascii := ascii_of_nat (48 + Z.to_nat d).

(** [Number.prototype.toString] of a non-negative integer. *)
Fixpoint toDigits (fuel : nat) (n : Z) (acc : string) : string :=
  match fuel with
  | O => acc
  | S fuel' =>
      let acc' := String (digit (n mod 10)) acc in
      if n / 10 =? 0 then acc' else toDigits fuel' (n / 10) acc'
  end.

Definition toString (n : Z) : string :=
  toDigits (S (Z.to_nat (Z.log2 n))) n EmptyString.

(** [String.prototype.padStart(targetLength, "0")]. *)
Fixpoint zeros (k : nat) (s : string) : string :=
  match k with O => s | S k' => String "0" (zeros k' s) end.

Definition padStart (targetLength : nat) (s : string) : string :=
  zeros (targetLength - String.length s) s.

(** date-fns [addLeadingZeros]. *)
Definition addLeadingZeros (number : Z) (targetLength : nat) : string :=
  (if number <? 0 then "-" else EmptyString)
    +:+ padStart targetLength (toString (Z.abs number)).

(** The [y] formatter: years up to 0 are counted backwards from 1. *)
Definition yyyy (signedYear : Z) : string :=
  addLeadingZeros (if 0 <? signedYear then signedYear else 1 - signedYear) 4.

(** [format(new Date(t), "yyyy-MM-dd HH:mm:ss")]; [None] is the
    [RangeError] thrown for an invalid date. *)
Definition format (LocalTZA : Z -> Z) (t : Z) : option string :=
  if isValid t then
    Some (yyyy (getFullYear LocalTZA t)
          +:+ "-" +:+ addLeadingZeros (getMonth LocalTZA t + 1) 2
          +:+ "-" +:+ addLeadingZeros (getDate LocalTZA t) 2
          +:+ " " +:+ addLeadingZeros (getHours LocalTZA t) 2
          +:+ ":" +:+ addLeadingZeros (getMinutes LocalTZA t) 2
          +:+ ":" +:+ addLeadingZeros (getSeconds LocalTZA t) 2)
  else None.

End DateFns.

(** ** [ScanHistory] (scan-history.tsx, lines 24-147) *)

Definition newline : string := String (ascii_of_nat 10) EmptyString.

Module ScanHistory.

(** The three [useState] cells. *)
Record State := {
  summary : option string;
  isSummarizing : bool;
  isSummaryOpen : bool;
}.

(** The component and the texts it has handed to [summarizeScanHistory]. *)
Record World := {
  ui : State;
  calls : list string;
}.

Definition setSummary (v : option string) (w : World) : World :=
  {| ui := {| summary := v; isSummarizing := isSummarizing (ui w);
              isSummaryOpen := isSummaryOpen (ui w) |};
     calls := calls w |}.

Definition setIsSummarizing (v : bool) (w : World) : World :=
  {| ui := {| summary := summary (ui w); isSummarizing := v;
              isSummaryOpen := isSummaryOpen (ui w) |};
     calls := calls w |}.

Definition setIsSummaryOpen (v : bool) (w : World) : World :=
  {| ui := {| summary := summary (ui w);
              isSummarizing := isSummarizing (ui w);
              isSummaryOpen := v |};
     calls := calls w |}.

Definition summarizeScanHistory (scanHistory : string) (w : World) : World :=
  {| ui := ui w; calls := calls w ++ [scanHistory] |}.

(** Line 35, the template literal of one record; [None] when [format]
    throws. *)
Definition line (LocalTZA : Z -> Z) (h : ScanResult) : option string :=
  stamp ← DateFns.format LocalTZA (timestamp h);
  Some (plateNumber h +:+ " at " +:+ stamp).

(** Lines 34-36: [history.map(...).join("\n")]. An exception in the
    callback of [map] ends the whole expression. *)
Definition historyStr (LocalTZA : Z -> Z) (history : list ScanResult)
    : option string :=
  lines ← mapM (line LocalTZA) history;
  Some (JS.join newline lines).

Definition handleGenerateSummary_catch (w : World) : World :=
  setSummary (Some "Failed to generate summary. Please try again later.") w.

Definition handleGenerateSummary_finally (w : World) : World :=
  setIsSummarizing false w.

(** Lines 29-37, up to the [await]. *)
Definition handleGenerateSummary_start (LocalTZA : Z -> Z)
    (history : list ScanResult) (w : World) : World :=
  if (length history =? 0)%nat then w
  else
    let w := setIsSummaryOpen true (setIsSummarizing true w) in
    match historyStr LocalTZA history with
    | Some text => summarizeScanHistory text w
    | None =>
        handleGenerateSummary_finally (handleGenerateSummary_catch w)
    end.

(** Lines 38-44, once the call has settled with a summary or an error. *)
Definition handleGenerateSummary_resume (result : option string)
    (w : World) : World :=
  handleGenerateSummary_finally
    match result with
    | Some text => setSummary (Some text) w
    | None => handleGenerateSummary_catch w
    end.

End ScanHistory.

(** ** The wording of the specification, for comparison *)

Module Spec.

(** Section 8: the staged plate is the returned one, trimmed and
    upper-cased. *)
Definition normalize (plateNumber : string) : string :=
  JS.toUpperCase (JS.trim plateNumber).

Definition isDigit (c : ascii) : bool :=
  let n := nat_of_ascii c in ((48 <=? n) && (n <=? 57))%nat.

Fixpoint all_digits (s : string) : bool :=
  match s with
  | EmptyString => true
  | String c r => isDigit c && all_digits r
  end.

(** The two decimal digits of a number below 100. *)
Definition two (n : Z) : string :=
  String (DateFns.digit (n / 10)) (String (DateFns.digit (n mod 10)) EmptyString).

(** An ISO-like timestamp: a year of four digits or more, then month, day,
    hour, minute and second of two digits each, as
    [year-month-day hour:minute:second]. *)
Definition isoLike (stamp : string) : Prop :=
  exists (year : string) (month day hour minute second : Z),
    stamp = year +:+ "-" +:+ two month +:+ "-" +:+ two day
                 +:+ " " +:+ two hour +:+ ":" +:+ two minute
                 +:+ ":" +:+ two second
    /\ all_digits year = true /\ (4 <= String.length year)%nat
    /\ 1 <= month <= 12 /\ 1 <= day <= 31
    /\ 0 <= hour < 24 /\ 0 <= minute < 60 /\ 0 <= second < 60.

(** Section 4.3: the line of a record is its plate, [" at "] and an
    ISO-like timestamp. *)
Definition isLine (r : ScanResult) (l : string) : Prop :=
  exists stamp, l = plateNumber r +:+ " at " +:+ stamp /\ isoLike stamp.

(** Section 4.5: the call is refused exactly when neither an image nor a
    hint is present. *)
Definition refused (input : Flow.Image.InitiateScanWithPromptInput) : bool :=
  negb (Flow.Image.image_present input || Flow.Image.hint_present input).

End Spec.

(** ** Capture-to-decision cycles *)

Inductive decision := accept | reject.

(** One cycle: a frame is captured, the call answers [answer], and the user
    decides on what is staged. [fresh] and [now] are the identifier and the
    time the parent gives the record on accept. *)
Record cycle := {
  frame : string;
  answer : string;
  verdict : decision;
  fresh : nat;
  now : Z;
}.

Definition decide_event (cy : cycle) : event :=
  match verdict cy with
  | accept => Save (fresh cy) (now cy)
  | reject => Redo
  end.

Definition cycle_events (cy : cycle) : list event :=
  [Trigger true (frame cy); Settle (Fulfilled (answer cy)) 0; decide_event cy].

Fixpoint accepts (cs : list cycle) : nat :=
  match cs with
  | [] => 0
  | cy :: rest =>
      match verdict cy with
      | accept => S (accepts rest)
      | reject => accepts rest
      end
  end.

(** The flag and the calls in flight agree. *)
Definition in_step (w : World) : Prop :=
  length (pending w) = if isCapturing (ui w) then 1%nat else 0%nat.

(** Nothing in flight, both refs set: the scan button can start a capture. *)
Definition ready (w : World) : Prop :=
  isCapturing (ui w) = false /\ videoRef (ui w) = true
  /\ canvasRef (ui w) = true /\ pending w = [].

(** ** Sample runs *)

Definition sampleFrame : string := "data:image/jpeg;base64,AAAA".

(** A capture in flight, from a fresh mount. *)
Definition in_flight (c : component) : World :=
  run c (mounted true true []) [Trigger true sampleFrame].

(** The call of that capture has answered [plateNumber]. *)
Definition answered (c : component) (plateNumber : string) : World :=
  step c (in_flight c) (Settle (Fulfilled plateNumber) 0).

(** Three cycles: two accepts around a reject. *)
Definition sampleCycles : list cycle :=
  [ {| frame := sampleFrame; answer := "AAA-111"; verdict := accept;
       fresh := 1; now := 1700000000000 |};
    {| frame := sampleFrame; answer := "BBB-222"; verdict := reject;
       fresh := 2; now := 1700000060000 |};
    {| frame := sampleFrame; answer := "CCC-333"; verdict := accept;
       fresh := 3; now := 1700000120000 |} ].

(** The History Log those cycles leave behind a fresh mount. *)
Definition sampleLog : list ScanResult :=
  history (run CameraScannerTsx (mounted true true [])
             (concat (map cycle_events sampleCycles))).

(** A request that carries a hint and no image, and a prompt call that
    would answer it. *)
Definition hintOnly : Flow.Image.InitiateScanWithPromptInput :=
  {| Flow.Image.prompt := Flow.VString "ABC-123";
     Flow.Image.photoDataUri := Flow.VUndefined |}.

Definition echoPrompt (input : Flow.Image.InitiateScanWithPromptInput)
    : Flow.reply :=
  Flow.Output (Some {| Flow.plateNumber := Flow.VString "ABC-123" |}).

(** The scan line and the in-flight flag say the same. *)
Definition flags_agree (w : World) : Prop :=
  isScanning (ui w) = isCapturing (ui w).

(** ** What the scanner renders

    The conditions of the JSX, the same text in the four revisions
    (camera-scanner.tsx lines 134, 142, 153 and 189). *)

(** [{isScanning && <div className="scan-line" />}] *)
Definition scanLineShown (s : Scanner) : bool := isScanning s.

(** [{!stream && (...Initializing Camera...)}] *)
Definition initializingShown (s : Scanner) : bool :=
  match stream s with None => true | Some _ => false end.

(** [{detectedPlate && !isScanning && (...)}]: the card with the plate and
    the Redo and Save buttons. *)
Definition cardShown (s : Scanner) : bool :=
  JS.truthy_opt (detectedPlate s) && negb (isScanning s).

(** [disabled={isCapturing || !stream}] on the scan button. *)
Definition scanDisabled (s : Scanner) : bool :=
  isCapturing s || initializingShown s.

(** Whether the page lets an event happen: a disabled button does not fire
    its [onClick], and a button that is not rendered cannot be pressed. *)
Definition offered (s : Scanner) (e : event) : bool :=
  match e with
  | Trigger _ _ => negb (scanDisabled s)
  | Settle _ _ => true
  | Save _ _ => cardShown s
  | Redo => cardShown s
  end.

(** An event as it reaches the handlers through the page. *)
Definition press (c : component) (w : World) (e : event) : World :=
  if offered (ui w) e then step c w e else w.

Definition use (c : component) (w : World) (es : list event) : World :=
  fold_left (press c) es w.

Definition is_settle (e : event) : bool :=
  match e with Settle _ _ => true | _ => false end.

(** ** The component against its flow *)

(** The call a revision makes goes to the flow of that revision; this is
    the check that flow makes on it. *)
Definition fits (c : component) (q : Flow.call) : bool :=
  match c, q with
  | Part000, Flow.TextCall i => Flow.Text.InitiateScanWithPromptInputSchema i
  | Part000, Flow.ImageCall _ => false
  | _, Flow.ImageCall i => Flow.Image.InitiateScanWithPromptInputSchema i
  | _, Flow.TextCall _ => false
  end.

(** How the promise of [initiateScanWithPrompt] settles for a result of the
    flow: an error thrown on the server rejects it. *)
Definition settle_of (r : Flow.error + Flow.InitiateScanWithPromptOutput)
    : settled :=
  match r with
  | inr o =>
      match Flow.plateNumber o with
      | Flow.VString s => Fulfilled s
      | _ => Rejected
      end
  | inl _ => Rejected
  end.

Definition serve
    (imageModel : Flow.Image.InitiateScanWithPromptInput -> Flow.reply)
    (textModel : Flow.Text.InitiateScanWithPromptInput -> Flow.reply)
    (q : Flow.call) : settled :=
  match q with
  | Flow.ImageCall i => settle_of (Flow.Image.initiateScanWithPrompt imageModel i)
  | Flow.TextCall i => settle_of (Flow.Text.initiateScanWithPrompt textModel i)
  end.

(** The oldest call in flight is answered by the flow. *)
Definition serve_pending (c : component)
    (imageModel : Flow.Image.InitiateScanWithPromptInput -> Flow.reply)
    (textModel : Flow.Text.InitiateScanWithPromptInput -> Flow.reply)
    (pick : nat) (w : World) : World :=
  match pending w with
  | [] => w
  | q :: _ => step c w (Settle (serve imageModel textModel q) pick)
  end.

(** What a revision puts in [detectedPlate] for a plate it accepts. *)
Definition staged_form (c : component) (plateNumber : string) : string :=
  match c with
  | ScanHistoryTsx => JS.toUpperCase plateNumber
  | _ => plateNumber
  end.

(** ** The summary flow (initiate-scan-with-prompt.ts, lines 113-165) *)

Module SummaryFlow.

Record SummarizeScanHistoryInput := {
  scanHistory : Flow.value;
}.

Record SummarizeScanHistoryOutput := {
  summary : Flow.value;
}.

Definition SummarizeScanHistoryInputSchema
    (i : SummarizeScanHistoryInput) : bool :=
  Flow.accepts Flow.ZString (scanHistory i).

Definition SummarizeScanHistoryOutputSchema
    (o : SummarizeScanHistoryOutput) : bool :=
  Flow.accepts Flow.ZString (summary o).

Inductive reply :=
| Threw
| Output (output : option SummarizeScanHistoryOutput).

(** [ai.defineFlow({inputSchema, outputSchema}, async input => {
       const {output} = await prompt(input); return output!; })] *)
Definition summarizeScanHistory
    (model : SummarizeScanHistoryInput -> reply)
    (input : SummarizeScanHistoryInput)
    : Flow.error + SummarizeScanHistoryOutput :=
  if SummarizeScanHistoryInputSchema input then
    match model input with
    | Threw => inl Flow.ServiceFailure
    | Output None => inl Flow.InvalidOutput
    | Output (Some o) =>
        if SummarizeScanHistoryOutputSchema o then inr o
        else inl Flow.InvalidOutput
    end
  else inl Flow.InvalidInput.

(** What [handleGenerateSummary] gets from its [await] for a text it sent:
    [result.summary], or nothing when the promise rejects. *)
Definition awaited (model : SummarizeScanHistoryInput -> reply)
    (text : string) : option string :=
  match summarizeScanHistory model {| scanHistory := Flow.VString text |} with
  | inr o =>
      match summary o with
      | Flow.VString s => Some s
      | _ => None
      end
  | inl _ => None
  end.

End SummaryFlow.

(** ** What [ScanHistory] renders (scan-history.tsx, lines 47-146) *)

(** [{history.length > 0 && (...)}]: the Analyze and Clear buttons. *)
Definition analyzeShown (log : list ScanResult) : bool :=
  (0 <? length log)%nat.

(** The body of the dialog: [isSummarizing ? <loader> : summary]. *)
Definition reportShown (s : ScanHistory.State) : option string :=
  if ScanHistory.isSummarizing s then None else ScanHistory.summary s.

(** A summary request as the page lets it happen, answered by the flow. *)
Definition analyze (LocalTZA : Z -> Z)
    (model : SummaryFlow.SummarizeScanHistoryInput -> SummaryFlow.reply)
    (log : list ScanResult) (w : ScanHistory.World) : ScanHistory.World :=
  if analyzeShown log then
    let w1 := ScanHistory.handleGenerateSummary_start LocalTZA log w in
    match ScanHistory.historyStr LocalTZA log with
    | Some text =>
        ScanHistory.handleGenerateSummary_resume
          (SummaryFlow.awaited model text) w1
    | None => w1
    end
  else w.

(** The number of line breaks in a text. *)
Fixpoint lineBreaks (s : string) : nat :=
  match s with
  | EmptyString => 0%nat
  | String c r =>
      ((if Ascii.eqb c (ascii_of_nat 10) then 1 else 0) + lineBreaks r)%nat
  end.

(** ** The calendar as ECMAScript defines it, for comparison *)

Module Calendar.

(** A leap year of the proleptic Gregorian calendar. *)
Definition isLeap (y : Z) : bool :=
  ((y mod 4 =? 0) && negb (y mod 100 =? 0)) || (y mod 400 =? 0).

(** [DayFromYear]: the day number of 1 January of year [y], counted from
    1 January 1970. *)
Definition DayFromYear (y : Z) : Z :=
  365 * (y - 1970) + (y - 1969) / 4 - (y - 1901) / 100 + (y - 1601) / 400.

Definition monthLength (leap : bool) (m : Z) : Z :=
  if m =? 2 then (if leap then 29 else 28)
  else if (m =? 4) || (m =? 6) || (m =? 9) || (m =? 11) then 30
  else 31.

Definition daysInMonth (y m : Z) : Z := monthLength (isLeap y) m.

(** The days of the first [months] months of a year. *)
Fixpoint daysBeforeMonth (leap : bool) (months : nat) : Z :=
  match months with
  | O => 0
  | S k => daysBeforeMonth leap k + monthLength leap (Z.of_nat (S k))
  end.

(** The day number of day [d] of month [m] (1-12) of year [y]. *)
Definition dayNumber (y m d : Z) : Z :=
  DayFromYear y + daysBeforeMonth (isLeap y) (Z.to_nat (m - 1)) + d - 1.

(** The seconds from the epoch to a date and time of day. *)
Definition seconds (y m d h mi s : Z) : Z :=
  dayNumber y m d * 86400 + h * 3600 + mi * 60 + s.

End Calendar.

(** ** The timestamp of a line, tied to the record *)

Module Stamp.

Definition digitValue (c : ascii) : Z := Z.of_nat (nat_of_ascii c) - 48.

(** The number a string of decimal digits writes. *)
Fixpoint numberFrom (a : Z) (s : string) : Z :=
  match s with
  | EmptyString => a
  | String c r => numberFrom (10 * a + digitValue c) r
  end.

Definition number (s : string) : Z := numberFrom 0 s.

Definition leadingZero (s : string) : bool :=
  match s with
  | EmptyString => false
  | String c _ => Ascii.eqb c (ascii_of_nat 48)
  end.

(** [stamp] is the text [year-month-day hour:minute:second] of the second
    that holds the local time [localTime] (milliseconds): the year in four
    digits, or more without a leading zero, every other field in two; the
    date is a date of the calendar and, with the time of day, it is that
    second. Years up to 0 are written counted backwards from 1. *)
Definition isStampOf (localTime : Z) (stamp : string) : Prop :=
  exists (year : string) (y month day hour minute second : Z),
    stamp = year +:+ "-" +:+ Spec.two month +:+ "-" +:+ Spec.two day
                 +:+ " " +:+ Spec.two hour +:+ ":" +:+ Spec.two minute
                 +:+ ":" +:+ Spec.two second
    /\ Spec.all_digits year = true
    /\ (String.length year = 4%nat
        \/ ((4 < String.length year)%nat /\ leadingZero year = false))
    /\ number year = (if 0 <? y then y else 1 - y)
    /\ 1 <= month <= 12
    /\ 1 <= day <= Calendar.daysInMonth y month
    /\ 0 <= hour < 24 /\ 0 <= minute < 60 /\ 0 <= second < 60
    /\ Calendar.seconds y month day hour minute second = localTime / 1000.

(** The line of a record: its plate, [" at "] and the stamp of its
    timestamp in local time. *)
Definition isLineOf (LocalTZA : Z -> Z) (r : ScanResult) (l : string) : Prop :=
  exists stamp,
    l = plateNumber r +:+ " at " +:+ stamp
    /\ isStampOf (DateFns.LocalTime LocalTZA (timestamp r)) stamp.

End Stamp.

(** ** Checks over a bounded range, run by computation *)

Module Bounded.

Fixpoint all_from (n : nat) (i : Z) (P : Z -> bool) : bool :=
  match n with
  | O => true
  | S k => if P i then all_from k (i + 1) P else false
  end.

Definition flag (b : bool) : Z := if b then 1 else 0.

(** Day [doy] of a year that starts on 1 March: the month and day
    [DateFns.civil] computes are a date of the calendar and lie [doy] days
    after that 1 March. [leapThis] is for the year of that March,
    [leapNext] for the year after it. *)
Definition month_ok (leapThis leapNext : bool) (doy : Z) : bool :=
  let mp := (5 * doy + 2) / 153 in
  let d := doy - (153 * mp + 2) / 5 + 1 in
  let m := if mp <? 10 then mp + 3 else mp - 9 in
  let leap := if m <=? 2 then leapNext else leapThis in
  (1 <=? m) && (m <=? 12) && (1 <=? d) && (d <=? Calendar.monthLength leap m)
  && (Calendar.daysBeforeMonth leap (Z.to_nat (m - 1)) + d - 1
      =? if m <=? 2 then doy - 306 else 59 + flag leapThis + doy).

(** Year [yoe] of a 400-year era: where its 1 March and the next 1 January
    fall. *)
Definition year_ok (yoe : Z) : bool :=
  (Calendar.DayFromYear yoe + 59 + flag (Calendar.isLeap yoe)
   =? 365 * yoe + yoe / 4 - yoe / 100 - 719468)
  && (Calendar.DayFromYear (yoe + 1)
      =? Calendar.DayFromYear yoe + 365 + flag (Calendar.isLeap yoe)).

End Bounded.

(** ** A plate that holds a line break *)

Definition brokenPlate : string := "KA-01" +:+ newline.

(** The log after that plate was answered, staged and saved. *)
Definition brokenLog : list ScanResult :=
  history (run CameraScannerTsx (mounted true true [])
             [Trigger true sampleFrame; Settle (Fulfilled brokenPlate) 0;
              Save 1 1700000000000]).

(* ================================================================== *)
(** * Properties *)

(** ** Strings *)

Lemma trimStart_blank (s : string) :
  JS.trimStart s = EmptyString <-> JS.blank s = true.
Proof.
  induction s as [|c r IH]; simpl; [tauto|].
  destruct (JS.isWhiteSpace c); simpl; [exact IH|].
  split; discriminate.
Qed.

Lemma trimEnd_blank (s : string) :
  JS.trimEnd s = EmptyString <-> JS.blank s = true.
Proof.
  induction s as [|c r IH]; simpl; [tauto|].
  destruct (JS.trimEnd r) eqn:E.
  - destruct (JS.isWhiteSpace c); simpl.
    + split; [intros _; now apply IH | reflexivity].
    + split; discriminate.
  - split; [discriminate|]. intros H.
    apply andb_true_iff in H. destruct H as [_ H].
    apply IH in H. discriminate H.
Qed.

Lemma trimStart_not_blank (s : string) :
  JS.blank s = false -> JS.blank (JS.trimStart s) = false.
Proof.
  induction s as [|c r IH]; simpl; [discriminate|].
  destruct (JS.isWhiteSpace c) eqn:W; simpl; [exact IH|].
  intros _. now rewrite W.
Qed.

(** A string trims to nothing exactly when it is all white space. *)
Lemma trim_blank (s : string) :
  JS.trim s = EmptyString <-> JS.blank s = true.
Proof.
  unfold JS.trim. rewrite trimEnd_blank. split.
  - intros H. destruct (JS.blank s) eqn:B; [reflexivity|].
    apply trimStart_not_blank in B. congruence.
  - intros H. apply trimStart_blank in H. now rewrite H.
Qed.

(** The test of [handleScan], [plateNumber && plateNumber.trim().length > 0],
    fails exactly on the strings that trim to the empty string. *)
Lemma nonblank_test (s : string) :
  JS.truthy s && (0 <? String.length (JS.trim s))%nat = false
  <-> JS.trim s = EmptyString.
Proof.
  split.
  - destruct s as [|c r]; [reflexivity|]. simpl JS.truthy. simpl andb.
    destruct (JS.trim (String c r)); [reflexivity|discriminate].
  - intros ->. now rewrite andb_false_r.
Qed.

Lemma nonblank_test_true (s : string) :
  JS.trim s <> EmptyString ->
  JS.truthy s && (0 <? String.length (JS.trim s))%nat = true.
Proof.
  intros H. destruct (JS.truthy s && _) eqn:E; [reflexivity|].
  apply nonblank_test in E. contradiction.
Qed.

Lemma nonblank_truthy (s : string) :
  JS.trim s <> EmptyString -> JS.truthy s = true.
Proof. destruct s; [intros H; now destruct H | reflexivity]. Qed.

(** ** What the pieces of [handleScan] touch *)

Lemma finally_resets (w : World) :
  isCapturing (ui (handleScan_finally w)) = false
  /\ isScanning (ui (handleScan_finally w)) = false
  /\ detectedPlate (ui (handleScan_finally w)) = detectedPlate (ui w)
  /\ history (handleScan_finally w) = history w
  /\ toasts (handleScan_finally w) = toasts w
  /\ pending (handleScan_finally w) = pending w.
Proof. repeat split. Qed.

Lemma settled_frame (c : component) (pick : nat) (o : settled) (w : World) :
  history (handleScan_settled c pick o w) = history w
  /\ pending (handleScan_settled c pick o w) = pending w
  /\ isCapturing (ui (handleScan_settled c pick o w)) = isCapturing (ui w).
Proof.
  destruct c, o as [r|]; simpl;
    unfold CameraScanner.handleScan_then, UpperScanner.handleScan_then,
      DemoScanner.handleScan_then, FlippedScanner.handleScan_then;
    repeat match goal with |- context [if ?b then _ else _] => destruct b end;
    repeat split.
Qed.

Lemma savePlate_frame (fresh : nat) (now : Z) (w : World) :
  pending (savePlate fresh now w) = pending w
  /\ isCapturing (ui (savePlate fresh now w)) = isCapturing (ui w)
  /\ videoRef (ui (savePlate fresh now w)) = videoRef (ui w)
  /\ canvasRef (ui (savePlate fresh now w)) = canvasRef (ui w).
Proof.
  unfold savePlate. destruct (detectedPlate (ui w)) as [p|]; [|repeat split].
  destruct (JS.truthy p); repeat split.
Qed.

(** ** The in-flight flag and the calls in flight *)

Lemma mounted_in_step (video canvas : bool) (log : list ScanResult) :
  in_step (mounted video canvas log).
Proof. reflexivity. Qed.

Lemma start_in_step (c : component) (ctx : bool) (photo : string) (w : World) :
  in_step w -> in_step (handleScan_start c ctx photo w).
Proof.
  unfold in_step. intros H.
  destruct c; simpl;
    unfold CameraScanner.handleScan_start, UpperScanner.handleScan_start,
      DemoScanner.handleScan_start, FlippedScanner.handleScan_start;
    destruct (isCapturing (ui w)) eqn:C; simpl; rewrite ?C; try exact H;
    try (destruct (negb (videoRef (ui w)) || negb (canvasRef (ui w)));
         [rewrite C; exact H|]; destruct ctx; simpl);
    rewrite ?length_app, ?H; reflexivity.
Qed.

Lemma step_in_step (c : component) (w : World) (e : event) :
  in_step w -> in_step (step c w e).
Proof.
  intros H. destruct e as [ctx photo|o pick|fresh now|]; simpl.
  - now apply start_in_step.
  - destruct (pending w) as [|q rest] eqn:P; [exact H|].
    unfold in_step, handleScan_resume.
    destruct (finally_resets (handleScan_settled c pick o (take_pending w)))
      as (-> & _ & _ & _ & _ & ->).
    destruct (settled_frame c pick o (take_pending w)) as (_ & -> & _).
    simpl. rewrite P. simpl.
    unfold in_step in H. rewrite P in H. simpl in H.
    destruct (isCapturing (ui w)); [now injection H | discriminate].
  - unfold in_step.
    destruct (savePlate_frame fresh now w) as (-> & -> & _). exact H.
  - exact H.
Qed.

Lemma run_in_step (c : component) (es : list event) (w : World) :
  in_step w -> in_step (run c w es).
Proof.
  revert w. induction es as [|e es IH]; intros w H; simpl; [exact H|].
  apply IH. now apply step_in_step.
Qed.

(** C2. While a capture is in flight ([isCapturing] is set), the scan button
    does nothing: the whole world, hence the workflow state, the staged
    result and the calls in flight, is what it was. In every state the
    component reaches after mounting, at most one recognition call is in
    flight. This holds for each of the four components. *)
Theorem capture_in_flight_refuses_trigger
    (c : component) (ctx : bool) (photoDataUri : string) (w : World) :
  isCapturing (ui w) = true ->
  step c w (Trigger ctx photoDataUri) = w
  /\ forall (video canvas : bool) (log : list ScanResult) (es : list event),
       (length (pending (run c (mounted video canvas log) es)) <= 1)%nat.
Proof.
  intros C. split.
  - destruct c; simpl;
      unfold CameraScanner.handleScan_start, UpperScanner.handleScan_start,
        DemoScanner.handleScan_start, FlippedScanner.handleScan_start;
      rewrite C; reflexivity.
  - intros video canvas log es.
    pose proof (run_in_step c es _ (mounted_in_step video canvas log)) as H.
    unfold in_step in H. rewrite H.
    destruct (isCapturing (ui (run c (mounted video canvas log) es))); lia.
Qed.

(** C10. With nothing staged ([detectedPlate] is null, or falsy), the Save
    button does nothing: [onScan] is not called, so the History Log is
    unchanged, and the state of the component is unchanged. *)
Theorem savePlate_without_staged_result
    (c : component) (fresh : nat) (now : Z) (w : World) :
  JS.truthy_opt (detectedPlate (ui w)) = false ->
  step c w (Save fresh now) = w.
Proof.
  simpl. unfold savePlate.
  destruct (detectedPlate (ui w)) as [p|]; simpl; [|reflexivity].
  now intros ->.
Qed.

Lemma capture_in_flight_refuses_trigger_witness :
  isCapturing (ui (in_flight CameraScannerTsx)) = true
  /\ step CameraScannerTsx (in_flight CameraScannerTsx) (Trigger true sampleFrame)
     = in_flight CameraScannerTsx.
Proof.
  split; [reflexivity|].
  apply (capture_in_flight_refuses_trigger CameraScannerTsx true sampleFrame
           (in_flight CameraScannerTsx)).
  reflexivity.
Defined.

Lemma savePlate_without_staged_result_witness :
  step Part000 (mounted true true []) (Save 0%nat 0) = mounted true true [].
Proof.
  apply (savePlate_without_staged_result Part000 0%nat 0 (mounted true true [])).
  reflexivity.
Defined.

(** ** An answer that trims to nothing *)

Lemma surfaced_one (w : World) (t : Toast) : surfaced w (toast t w) = [t].
Proof. unfold surfaced, toast. simpl. apply drop_app_length. Qed.

Lemma blank_then_camera (plateNumber : string) (w : World) :
  JS.trim plateNumber = EmptyString ->
  CameraScanner.handleScan_then plateNumber w
  = toast CameraScanner.noPlateFound w.
Proof.
  intros B. unfold CameraScanner.handleScan_then.
  apply nonblank_test in B. now rewrite B.
Qed.

Lemma blank_then_flipped (plateNumber : string) (w : World) :
  JS.trim plateNumber = EmptyString ->
  FlippedScanner.handleScan_then plateNumber w
  = toast FlippedScanner.noPlateFound w.
Proof.
  intros B. unfold FlippedScanner.handleScan_then.
  apply nonblank_test in B. now rewrite B.
Qed.

Lemma blank_then_upper (plateNumber : string) (w : World) :
  JS.trim plateNumber = EmptyString ->
  UpperScanner.handleScan_then plateNumber w
  = toast CameraScanner.noPlateFound w.
Proof.
  intros B. unfold UpperScanner.handleScan_then.
  apply nonblank_test in B. now rewrite B.
Qed.

(** C1, as amended. In camera-scanner.tsx, in the scanner of
    scan-history.tsx and in unnamed/part_001, an answer whose plateNumber
    trims to the empty string takes the workflow from Capturing through
    Failed (the destructive "No Plate Found" notification) to not capturing;
    [detectedPlate] is left as it was, so the workflow ends in Idle when
    nothing was staged before; the History Log is unchanged. In
    unnamed/part_000 the empty string is replaced by the mock plate at the
    index drawn, which is staged. *)
Theorem blank_answer_fails_without_staging
    (pick : nat) (plateNumber : string) (w : World) :
  JS.trim plateNumber = EmptyString ->
  isCapturing (ui w) = true ->
  pending w <> [] ->
  (forall c notice, noPlateFound c = Some notice ->
     let w' := step c w (Settle (Fulfilled plateNumber) pick) in
     settle_phases c pick (Fulfilled plateNumber) (take_pending w)
     = [Capturing; Failed;
        if JS.truthy_opt (detectedPlate (ui w)) then Staged else Idle]
     /\ detectedPlate (ui w') = detectedPlate (ui w)
     /\ isCapturing (ui w') = false
     /\ isScanning (ui w') = false
     /\ history w' = history w
     /\ toasts w' = toasts w ++ [notice]
     /\ destructive notice = true
     /\ pending w' = tail (pending w))
  /\ (let w' := step Part000 w (Settle (Fulfilled EmptyString) pick) in
      detectedPlate (ui w') = DemoScanner.mockPlates !! pick
      /\ toasts w' = toasts w
      /\ history w' = history w).
Proof.
  intros B C P. destruct (pending w) as [|q rest] eqn:E; [now destruct P|].
  split.
  - intros c notice Hc.
    assert (S : handleScan_settled c pick (Fulfilled plateNumber) (take_pending w)
                = toast notice (take_pending w)
                /\ destructive notice = true).
    { destruct c; simpl in *; try discriminate; injection Hc as <-;
        [rewrite blank_then_camera | rewrite blank_then_upper
         | rewrite blank_then_flipped]; auto. }
    destruct S as (S & Dn).
    unfold settle_phases, phase_in, handleScan_resume. cbv zeta.
    simpl step. rewrite E. unfold handleScan_resume.
    rewrite S, surfaced_one.
    unfold phase_of. simpl. rewrite C, E, Dn. simpl.
    repeat split.
  - simpl. rewrite E. repeat split.
Qed.

Lemma blank_answer_fails_without_staging_witness :
  settle_phases CameraScannerTsx 0 (Fulfilled "  ")
    (take_pending (in_flight CameraScannerTsx))
  = [Capturing; Failed; Idle]
  /\ detectedPlate (ui (answered CameraScannerTsx "  ")) = None
  /\ history (answered CameraScannerTsx "  ") = [].
Proof.
  destruct (blank_answer_fails_without_staging 0 "  "
              (in_flight CameraScannerTsx)) as [H _].
  - reflexivity.
  - reflexivity.
  - discriminate.
  - destruct (H CameraScannerTsx CameraScanner.noPlateFound)
      as (H1 & H2 & _ & _ & H5 & _).
    + reflexivity.
    + split; [exact H1 | split; [exact H2 | exact H5]].
Defined.

(** C1, as stated, fails in unnamed/part_000: on the empty answer the
    workflow does not pass through Failed, and the first mock plate is
    staged. *)
Lemma demo_scanner_stages_mock_plate :
  JS.trim EmptyString = EmptyString
  /\ settle_phases Part000 0 (Fulfilled EmptyString)
       (take_pending (in_flight Part000))
     = [Capturing; Capturing; Staged]
  /\ detectedPlate (ui (answered Part000 EmptyString)) = Some "ABC-1234"
  /\ ~ (settle_phases Part000 0 (Fulfilled EmptyString)
          (take_pending (in_flight Part000))
        = [Capturing; Failed; Idle]
        /\ detectedPlate (ui (answered Part000 EmptyString)) = None).
Proof.
  repeat split; intros [H _]; discriminate H.
Qed.

(** ** What is staged *)

Lemma nonblank_then_camera (plateNumber : string) (w : World) :
  JS.trim plateNumber <> EmptyString ->
  CameraScanner.handleScan_then plateNumber w
  = toast (plateDetected plateNumber)
      (update (setDetectedPlate (Some plateNumber)) w).
Proof.
  intros B. unfold CameraScanner.handleScan_then.
  now rewrite (nonblank_test_true _ B).
Qed.

Lemma nonblank_then_flipped (plateNumber : string) (w : World) :
  JS.trim plateNumber <> EmptyString ->
  FlippedScanner.handleScan_then plateNumber w
  = toast (plateDetected plateNumber)
      (update (setDetectedPlate (Some plateNumber)) w).
Proof.
  intros B. unfold FlippedScanner.handleScan_then.
  now rewrite (nonblank_test_true _ B).
Qed.

Lemma nonblank_then_upper (plateNumber : string) (w : World) :
  JS.trim plateNumber <> EmptyString ->
  UpperScanner.handleScan_then plateNumber w
  = toast (plateDetected plateNumber)
      (update (setDetectedPlate (Some (JS.toUpperCase plateNumber))) w).
Proof.
  intros B. unfold UpperScanner.handleScan_then.
  now rewrite (nonblank_test_true _ B).
Qed.

(** C4, as amended. For an answer that is not empty after trimming,
    camera-scanner.tsx (and unnamed/part_000, unnamed/part_001) stages the
    returned string as it is, and the scanner of scan-history.tsx stages it
    upper-cased; none trims it. The latter agrees with trim-and-upper-case
    on answers that carry no surrounding white space. *)
Theorem staged_plate_is_raw_or_uppercased
    (pick : nat) (plateNumber : string) (w : World) :
  JS.trim plateNumber <> EmptyString ->
  pending w <> [] ->
  (forall c, c <> ScanHistoryTsx ->
     detectedPlate (ui (step c w (Settle (Fulfilled plateNumber) pick)))
     = Some plateNumber)
  /\ detectedPlate (ui (step ScanHistoryTsx w (Settle (Fulfilled plateNumber) pick)))
     = Some (JS.toUpperCase plateNumber)
  /\ (JS.trim plateNumber = plateNumber ->
      detectedPlate (ui (step ScanHistoryTsx w (Settle (Fulfilled plateNumber) pick)))
      = Some (Spec.normalize plateNumber)).
Proof.
  intros B P. destruct (pending w) as [|q rest] eqn:E; [now destruct P|].
  pose proof (nonblank_truthy _ B) as T.
  split; [|split].
  - intros c Hc. simpl. rewrite E. unfold handleScan_resume.
    destruct c; simpl; [| now destruct Hc | |];
      rewrite ?(nonblank_then_camera _ _ B), ?(nonblank_then_flipped _ _ B);
      unfold DemoScanner.handleScan_then; rewrite ?T; reflexivity.
  - simpl. rewrite E. unfold handleScan_resume. simpl.
    now rewrite (nonblank_then_upper _ _ B).
  - intros Tr. simpl. rewrite E. unfold handleScan_resume. simpl.
    rewrite (nonblank_then_upper _ _ B). simpl.
    unfold Spec.normalize. now rewrite Tr.
Qed.

Lemma staged_plate_is_raw_or_uppercased_witness :
  detectedPlate (ui (answered CameraScannerTsx " abc-123 ")) = Some " abc-123 "
  /\ detectedPlate (ui (answered ScanHistoryTsx " abc-123 ")) = Some " ABC-123 ".
Proof.
  destruct (staged_plate_is_raw_or_uppercased 0 " abc-123 "
              (in_flight CameraScannerTsx)) as (H1 & _).
  - discriminate.
  - discriminate.
  - destruct (staged_plate_is_raw_or_uppercased 0 " abc-123 "
                (in_flight ScanHistoryTsx)) as (_ & H2 & _).
    + discriminate.
    + discriminate.
    + split; [apply (H1 CameraScannerTsx); discriminate | exact H2].
Defined.

(** C4, as stated, fails: the answer [" abc-123 "] is staged with its blanks
    in both components, in lower case in camera-scanner.tsx, and never as
    ["ABC-123"]. *)
Lemma staged_plate_not_normalized :
  Spec.normalize " abc-123 " = "ABC-123"
  /\ detectedPlate (ui (answered CameraScannerTsx " abc-123 "))
     <> Some (Spec.normalize " abc-123 ")
  /\ detectedPlate (ui (answered ScanHistoryTsx " abc-123 "))
     <> Some (Spec.normalize " abc-123 ").
Proof.
  split; [reflexivity|]. split; intros H; discriminate H.
Qed.

(** ** A new capture over a staged result *)

(** C5, as amended. In camera-scanner.tsx, starting a capture leaves a
    staged result in [detectedPlate] (the card is hidden while
    [isScanning]); it is replaced when the call answers a plate that is not
    empty after trimming, and it is still there when the call answers an
    empty plate or fails. *)
Theorem staged_result_replaced_only_by_new_plate
    (photoDataUri : string) (pick : nat) (o : settled)
    (plate : string) (w : World) :
  detectedPlate (ui w) = Some plate ->
  ready w ->
  detectedPlate (ui (step CameraScannerTsx w (Trigger true photoDataUri)))
  = Some plate
  /\ isScanning (ui (step CameraScannerTsx w (Trigger true photoDataUri))) = true
  /\ detectedPlate
       (ui (run CameraScannerTsx w [Trigger true photoDataUri; Settle o pick]))
     = match o with
       | Fulfilled plateNumber =>
           if JS.truthy plateNumber
              && (0 <? String.length (JS.trim plateNumber))%nat
           then Some plateNumber else Some plate
       | Rejected => Some plate
       end.
Proof.
  intros D (C & V & K & P). simpl.
  unfold CameraScanner.handleScan_start. rewrite C, V, K. simpl.
  rewrite P. simpl.
  split; [exact D|]. split; [reflexivity|].
  unfold handleScan_resume. destruct o as [r|]; simpl; [|exact D].
  unfold CameraScanner.handleScan_then.
  destruct (JS.truthy r && _); simpl; [reflexivity | exact D].
Qed.

Lemma staged_result_replaced_only_by_new_plate_witness :
  detectedPlate
    (ui (run CameraScannerTsx (answered CameraScannerTsx "AAA-111")
           [Trigger true sampleFrame; Settle (Fulfilled "BBB-222") 0]))
  = Some "BBB-222"
  /\ detectedPlate
       (ui (run CameraScannerTsx (answered CameraScannerTsx "AAA-111")
              [Trigger true sampleFrame; Settle Rejected 0]))
     = Some "AAA-111".
Proof.
  split.
  - apply (staged_result_replaced_only_by_new_plate sampleFrame 0
             (Fulfilled "BBB-222") "AAA-111"
             (answered CameraScannerTsx "AAA-111")).
    + reflexivity.
    + repeat split.
  - apply (staged_result_replaced_only_by_new_plate sampleFrame 0
             Rejected "AAA-111" (answered CameraScannerTsx "AAA-111")).
    + reflexivity.
    + repeat split.
Defined.

(** C5, as stated, fails: with ["AAA-111"] staged, the plate is still in
    [detectedPlate] after a new capture is triggered, after that capture
    answers the empty string and after it fails, and the workflow is then
    in Staged again. *)
Lemma staged_result_survives_new_capture :
  detectedPlate (ui (answered CameraScannerTsx "AAA-111")) = Some "AAA-111"
  /\ detectedPlate
       (ui (step CameraScannerTsx (answered CameraScannerTsx "AAA-111")
              (Trigger true sampleFrame)))
     = Some "AAA-111"
  /\ detectedPlate
       (ui (run CameraScannerTsx (answered CameraScannerTsx "AAA-111")
              [Trigger true sampleFrame; Settle (Fulfilled EmptyString) 0]))
     = Some "AAA-111"
  /\ detectedPlate
       (ui (run CameraScannerTsx (answered CameraScannerTsx "AAA-111")
              [Trigger true sampleFrame; Settle Rejected 0]))
     = Some "AAA-111"
  /\ phase_of
       (run CameraScannerTsx (answered CameraScannerTsx "AAA-111")
          [Trigger true sampleFrame; Settle (Fulfilled EmptyString) 0])
     = Staged
  /\ ~ detectedPlate
         (ui (step CameraScannerTsx (answered CameraScannerTsx "AAA-111")
                (Trigger true sampleFrame)))
       = None.
Proof.
  repeat split. intros H. discriminate H.
Qed.

(** ** Accepts, rejects and the History Log *)

Lemma toUpperCase_truthy (s : string) :
  JS.truthy (JS.toUpperCase s) = JS.truthy s.
Proof. destruct s; reflexivity. Qed.

Lemma run_app (c : component) (w : World) (es1 es2 : list event) :
  run c w (es1 ++ es2) = run c (run c w es1) es2.
Proof. apply fold_left_app. Qed.

(** A capture from a ready component whose call answers a plate stages a
    truthy string and leaves the component ready. *)
Lemma capture_stages (c : component) (photo answer : string) (w : World) :
  ready w ->
  JS.trim answer <> EmptyString ->
  exists plate,
    JS.truthy plate = true
    /\ detectedPlate
         (ui (run c w [Trigger true photo; Settle (Fulfilled answer) 0]))
       = Some plate
    /\ ready (run c w [Trigger true photo; Settle (Fulfilled answer) 0])
    /\ history (run c w [Trigger true photo; Settle (Fulfilled answer) 0])
       = history w.
Proof.
  intros (C & V & K & P) B.
  pose proof (nonblank_truthy _ B) as T.
  destruct c; simpl;
    unfold CameraScanner.handleScan_start, UpperScanner.handleScan_start,
      DemoScanner.handleScan_start, FlippedScanner.handleScan_start;
    rewrite ?C, ?V, ?K; simpl; rewrite P; simpl;
    unfold handleScan_resume; simpl;
    rewrite ?(nonblank_then_camera _ _ B), ?(nonblank_then_upper _ _ B),
      ?(nonblank_then_flipped _ _ B);
    unfold DemoScanner.handleScan_then; rewrite ?T; simpl.
  - exists answer.
    repeat split; simpl; rewrite ?P; simpl; try assumption; reflexivity.
  - exists (JS.toUpperCase answer). rewrite toUpperCase_truthy.
    repeat split; simpl; rewrite ?P; simpl; try assumption; reflexivity.
  - exists answer.
    repeat split; simpl; rewrite ?P; simpl; try assumption; reflexivity.
  - exists answer.
    repeat split; simpl; rewrite ?P; simpl; try assumption; reflexivity.
Qed.

(** The decision on a staged result. *)
Lemma decision_effect (c : component) (cy : cycle) (plate : string) (w : World) :
  ready w ->
  detectedPlate (ui w) = Some plate ->
  JS.truthy plate = true ->
  ready (step c w (decide_event cy))
  /\ length (history (step c w (decide_event cy)))
     = (length (history w) + accepts [cy])%nat.
Proof.
  intros (C & V & K & P) D T. unfold decide_event. simpl.
  destruct (verdict cy); simpl.
  - unfold savePlate. rewrite D, T. simpl. unfold onScan, HistoryLog.append.
    rewrite length_app. simpl. repeat split; assumption.
  - repeat split; try assumption. lia.
Qed.

Lemma cycles_history (c : component) (cs : list cycle) (w : World) :
  ready w ->
  Forall (fun cy => JS.trim (answer cy) <> EmptyString) cs ->
  ready (run c w (concat (map cycle_events cs)))
  /\ length (history (run c w (concat (map cycle_events cs))))
     = (length (history w) + accepts cs)%nat.
Proof.
  revert w. induction cs as [|cy cs IH]; intros w R F.
  - simpl. split; [exact R | lia].
  - inversion F as [|? ? B F']; subst.
    change (concat (map cycle_events (cy :: cs)))
      with ([Trigger true (frame cy); Settle (Fulfilled (answer cy)) 0]
              ++ [decide_event cy] ++ concat (map cycle_events cs)).
    rewrite !run_app.
    destruct (capture_stages c (frame cy) (answer cy) w R B)
      as (plate & T & D & R2 & H2).
    set (w2 := run c w [Trigger true (frame cy); Settle (Fulfilled (answer cy)) 0]) in *.
    destruct (decision_effect c cy plate w2 R2 D T) as (R3 & H3).
    change (run c w2 [decide_event cy]) with (step c w2 (decide_event cy)).
    destruct (IH _ R3 F') as (R4 & H4).
    split; [exact R4|]. rewrite H4, H3, H2. simpl.
    destruct (verdict cy); lia.
Qed.

(** C3. Over any sequence of capture-to-decision cycles in which every
    capture stages a result, the History Log grows by exactly the number of
    accepts, so it has as many records as there were accepts when it starts
    empty; a reject leaves the History Log as it is. The log is that of the
    specification: the parent appends one record per [onScan] call. *)
Theorem history_length_counts_accepts
    (c : component) (log : list ScanResult) (cs : list cycle) :
  Forall (fun cy => JS.trim (answer cy) <> EmptyString) cs ->
  length (history (run c (mounted true true log) (concat (map cycle_events cs))))
  = (length log + accepts cs)%nat
  /\ forall w, history (step c w Redo) = history w.
Proof.
  intros F. split.
  - apply (cycles_history c cs (mounted true true log)); [|exact F].
    repeat split.
  - reflexivity.
Qed.

Lemma history_length_counts_accepts_witness :
  length (history (run CameraScannerTsx (mounted true true [])
                     (concat (map cycle_events sampleCycles))))
  = 2%nat.
Proof.
  apply (history_length_counts_accepts CameraScannerTsx [] sampleCycles).
  repeat constructor; discriminate.
Defined.

(** ** Release of the camera *)

Lemma mark_lookup (v : readyState) (s : MediaStream) (tr : Tracks) (t : nat) :
  Lifecycle.mark v s tr !! t = if decide (t ∈ s) then Some v else tr !! t.
Proof.
  unfold Lifecycle.mark. revert tr.
  induction s as [|x s IH]; intros tr; simpl.
  - destruct (decide (t ∈ [])) as [H|_]; [inversion H | reflexivity].
  - rewrite IH. destruct (decide (t = x)) as [->|N].
    + rewrite lookup_insert_eq.
      repeat case_decide; try reflexivity;
        exfalso; rewrite elem_of_cons in *; tauto.
    + rewrite lookup_insert_ne by congruence.
      repeat case_decide; try reflexivity;
        exfalso; rewrite elem_of_cons in *; tauto.
Qed.

(** The cleanup stops every track of the stream it is given. *)
Lemma cleanup_of_stream_stops_all (s : MediaStream) (tr : Tracks) :
  Lifecycle.held s (Lifecycle.cleanup (Some s) tr) = [].
Proof.
  unfold Lifecycle.held, Lifecycle.cleanup.
  assert (G : forall l, (forall t, t ∈ l -> t ∈ s) ->
            filter (fun t => Lifecycle.mark ended s tr !! t = Some live) l = []).
  { induction l as [|x l IH]; intros Sub; [reflexivity|].
    rewrite filter_cons. case_decide as E.
    - rewrite mark_lookup in E. case_decide as M; [discriminate|].
      destruct M. apply Sub. now left.
    - apply IH. intros t Ht. apply Sub. now right. }
  apply G. auto.
Qed.

(** The cleanup of the mount effect never sees a stream. *)
Lemma closure_stream_fixed (c : component) (ls : list Lifecycle.life)
    (i : Lifecycle.Instance) :
  Lifecycle.closure_stream (Lifecycle.life_run c i ls)
  = Lifecycle.closure_stream i.
Proof.
  revert i. induction ls as [|l ls IH]; intros i; [reflexivity|].
  simpl. rewrite IH. now destruct l.
Qed.

(** With that cleanup, a live track stays live whatever happens. *)
Lemma live_stays_live (c : component) (ls : list Lifecycle.life)
    (i : Lifecycle.Instance) (t : nat) :
  Lifecycle.closure_stream i = None ->
  Lifecycle.tracks i !! t = Some live ->
  Lifecycle.tracks (Lifecycle.life_run c i ls) !! t = Some live.
Proof.
  revert i. induction ls as [|l ls IH]; intros i N L; [exact L|].
  simpl. apply IH.
  - now destruct l.
  - destruct l as [s| |es|]; simpl; try exact L.
    + rewrite mark_lookup. now case_decide.
    + rewrite N. simpl. now destruct (Lifecycle.alive i).
Qed.

(** C6, on the code. The cleanup React holds for the mount effect closes
    over the [stream] of the first render, which is null. Whatever happens
    before and after [getUserMedia] delivers a stream (user actions, further
    deliveries, unmount), every track of that stream is live at the end:
    no exit path stops a track. A camera acquired with one live track still
    holds it after teardown. *)
Theorem unmount_stops_no_track :
  (forall (c : component) (video canvas : bool) (log : list ScanResult)
          (tr : Tracks) (before after : list Lifecycle.life)
          (userStream : MediaStream),
      Lifecycle.held userStream
        (Lifecycle.tracks
           (Lifecycle.life_run c (Lifecycle.mount video canvas log tr)
              (before ++ Lifecycle.Resolved userStream :: after)))
      = userStream)
  /\ Lifecycle.held [0%nat]
       (Lifecycle.tracks
          (Lifecycle.life_run CameraScannerTsx
             (Lifecycle.mount true true [] ∅)
             [Lifecycle.Resolved [0%nat]; Lifecycle.Unmount]))
     = [0%nat].
Proof.
  split; [|vm_compute; reflexivity].
  intros c video canvas log tr before after userStream.
  unfold Lifecycle.life_run. rewrite fold_left_app. simpl fold_left.
  set (i := fold_left (Lifecycle.life_step c) before _).
  assert (N : Lifecycle.closure_stream i = None)
    by (subst i; apply (closure_stream_fixed c before)).
  assert (L : forall t, t ∈ userStream ->
            Lifecycle.tracks
              (fold_left (Lifecycle.life_step c) after
                 (Lifecycle.setupCamera_resolved userStream i)) !! t
            = Some live).
  { intros t M. apply (live_stays_live c after); [exact N|].
    simpl. rewrite mark_lookup. now rewrite decide_True. }
  unfold Lifecycle.held.
  assert (G : forall l : list nat, (forall t, t ∈ l -> t ∈ userStream) ->
            filter (fun t : nat =>
              Lifecycle.tracks
                (fold_left (Lifecycle.life_step c) after
                   (Lifecycle.setupCamera_resolved userStream i)) !! t
              = Some live) l = l).
  { induction l as [|x l IH]; intros Sub; [reflexivity|].
    rewrite filter_cons. rewrite decide_True by (apply L, Sub; now left).
    f_equal. apply IH. intros t Ht. apply Sub. now right. }
  apply G. auto.
Qed.

(** ** Input validation of the recognition flow *)

Lemma defineFlow_invalid {Input : Type} (inputSchema : Input -> bool)
    (outputSchema : Flow.InitiateScanWithPromptOutput -> bool)
    (model : Input -> Flow.reply) (input : Input) :
  Flow.defineFlow inputSchema outputSchema model input = inl Flow.InvalidInput
  <-> inputSchema input = false.
Proof.
  unfold Flow.defineFlow. destruct (inputSchema input); [|tauto].
  split; [|discriminate].
  destruct (model input) as [|[o|]]; try discriminate.
  destruct (outputSchema o); discriminate.
Qed.

(** A flow that returns hands back the output of the prompt call as it is,
    and that output has a string for plateNumber. *)
Lemma defineFlow_returns {Input : Type} (inputSchema : Input -> bool)
    (model : Input -> Flow.reply) (input : Input)
    (out : Flow.InitiateScanWithPromptOutput) :
  Flow.defineFlow inputSchema Flow.InitiateScanWithPromptOutputSchema
    model input = inr out ->
  model input = Flow.Output (Some out)
  /\ exists plateNumber, Flow.plateNumber out = Flow.VString plateNumber.
Proof.
  unfold Flow.defineFlow. destruct (inputSchema input); [|discriminate].
  destruct (model input) as [|[o|]]; try discriminate.
  destruct (Flow.InitiateScanWithPromptOutputSchema o) eqn:A; [|discriminate].
  intros [= <-]. split; [reflexivity|].
  unfold Flow.InitiateScanWithPromptOutputSchema in A. simpl in A.
  destruct (Flow.plateNumber o); try discriminate. eauto.
Qed.

(** C7, as amended. The image flow (lines 54-111) refuses an input exactly
    when it carries no image, or carries a prompt that is not a string: a
    hint is optional and does not stand in for the image. The text flow
    (lines 1-52) refuses an input exactly when it carries no hint. A call
    that returns gives the output of the prompt call, whose plateNumber is a
    string. *)
Theorem flow_refuses_by_schema
    (model : Flow.Image.InitiateScanWithPromptInput -> Flow.reply)
    (input : Flow.Image.InitiateScanWithPromptInput)
    (textModel : Flow.Text.InitiateScanWithPromptInput -> Flow.reply)
    (textInput : Flow.Text.InitiateScanWithPromptInput) :
  (Flow.Image.initiateScanWithPrompt model input = inl Flow.InvalidInput
   <-> Flow.Image.image_present input = false
       \/ (Flow.Image.prompt input <> Flow.VUndefined
           /\ Flow.Image.hint_present input = false))
  /\ (Flow.Text.initiateScanWithPrompt textModel textInput
      = inl Flow.InvalidInput
      <-> forall hint, Flow.Text.prompt textInput <> Flow.VString hint)
  /\ (forall out,
        Flow.Image.initiateScanWithPrompt model input = inr out ->
        model input = Flow.Output (Some out)
        /\ exists plateNumber,
             Flow.plateNumber out = Flow.VString plateNumber).
Proof.
  split; [|split].
  - unfold Flow.Image.initiateScanWithPrompt.
    rewrite defineFlow_invalid.
    unfold Flow.Image.InitiateScanWithPromptInputSchema,
      Flow.Image.hint_present, Flow.Image.image_present.
    destruct (Flow.Image.prompt input), (Flow.Image.photoDataUri input);
      simpl; split; intros H; try reflexivity; try discriminate;
      try (left; reflexivity); try (right; split; [discriminate|reflexivity]);
      destruct H as [H|[H1 H2]]; try discriminate; try congruence.
  - unfold Flow.Text.initiateScanWithPrompt.
    rewrite defineFlow_invalid.
    unfold Flow.Text.InitiateScanWithPromptInputSchema.
    destruct (Flow.Text.prompt textInput) as [| | | |s]; simpl;
      split; intros H; try reflexivity; try discriminate;
      try (intros hint; discriminate).
    now destruct (H s).
  - intros out. apply defineFlow_returns.
Qed.

(** C7, as stated, fails: an input with a hint and no image is not one the
    specification refuses, and the image flow refuses it. *)
Lemma hint_alone_is_refused :
  Flow.Image.hint_present hintOnly = true
  /\ Spec.refused hintOnly = false
  /\ Flow.Image.initiateScanWithPrompt echoPrompt hintOnly
     = inl Flow.InvalidInput.
Proof. repeat split. Qed.

(** ** Summary on an empty log *)

(** C8. The serialization of an empty History Log is the empty string, and
    a summary request on an empty log returns at the guard: no text is handed
    to [summarizeScanHistory] and the state of the component is what it
    was. *)
Theorem empty_log_is_never_summarized
    (LocalTZA : Z -> Z) (w : ScanHistory.World) :
  ScanHistory.historyStr LocalTZA [] = Some EmptyString
  /\ ScanHistory.handleGenerateSummary_start LocalTZA [] w = w.
Proof. split; reflexivity. Qed.

(** ** The timestamp text *)

Lemma civil_ranges (day : Z) :
  1 <= snd (fst (DateFns.civil day)) <= 12
  /\ 1 <= snd (DateFns.civil day) <= 31.
Proof.
  unfold DateFns.civil. cbv zeta.
  set (doe := (day + 719468) mod 146097).
  assert (Hdoe : 0 <= doe < 146097) by (apply Z.mod_pos_bound; lia).
  set (yoe := (doe - doe / 1460 + doe / 36524 - doe / 146096) / 365).
  set (doy := doe - (365 * yoe + yoe / 4 - yoe / 100)).
  assert (Hdoy : 0 <= doy <= 365)
    by (subst doy yoe; Z.div_mod_to_equations; lia).
  set (mp := (5 * doy + 2) / 153).
  assert (Hmp : 0 <= mp <= 11) by (subst mp; Z.div_mod_to_equations; lia).
  assert (Hd : 1 <= doy - (153 * mp + 2) / 5 + 1 <= 31)
    by (subst mp; Z.div_mod_to_equations; lia).
  simpl. destruct (Z.ltb_spec mp 10); lia.
Qed.

Lemma digit_isDigit (d : Z) :
  0 <= d < 10 -> Spec.isDigit (DateFns.digit d) = true.
Proof.
  intros H. unfold Spec.isDigit, DateFns.digit.
  rewrite nat_ascii_embedding by lia.
  apply andb_true_intro. split; apply Nat.leb_le; lia.
Qed.

Lemma toDigits_digits (fuel : nat) (n : Z) (acc : string) :
  Spec.all_digits acc = true ->
  Spec.all_digits (DateFns.toDigits fuel n acc) = true.
Proof.
  revert n acc. induction fuel as [|fuel IH]; intros n acc A;
    cbn [DateFns.toDigits]; [exact A|].
  assert (A' : Spec.all_digits (String (DateFns.digit (n mod 10)) acc) = true).
  { cbn [Spec.all_digits]. rewrite A, andb_true_r. apply digit_isDigit.
    apply Z.mod_pos_bound. lia. }
  destruct (n / 10 =? 0); [exact A' | now apply IH].
Qed.

Lemma zeros_digits (k : nat) (s : string) :
  Spec.all_digits (DateFns.zeros k s) = Spec.all_digits s.
Proof. induction k as [|k IH]; [reflexivity | exact IH]. Qed.

Lemma zeros_length (k : nat) (s : string) :
  String.length (DateFns.zeros k s) = (k + String.length s)%nat.
Proof. induction k as [|k IH]; simpl; [reflexivity | now rewrite IH]. Qed.

Lemma yyyy_shape (signedYear : Z) :
  Spec.all_digits (DateFns.yyyy signedYear) = true
  /\ (4 <= String.length (DateFns.yyyy signedYear))%nat.
Proof.
  unfold DateFns.yyyy, DateFns.addLeadingZeros, DateFns.padStart.
  set (year := if 0 <? signedYear then signedYear else 1 - signedYear).
  assert (Y : 0 < year) by (subst year; destruct (Z.ltb_spec 0 signedYear); lia).
  destruct (Z.ltb_spec year 0) as [N|_]; [lia|].
  change (EmptyString +:+ ?s) with s.
  rewrite zeros_digits, zeros_length. split; [|lia].
  now apply toDigits_digits.
Qed.

Lemma addLeadingZeros_two (n : Z) :
  0 <= n < 100 -> DateFns.addLeadingZeros n 2 = Spec.two n.
Proof.
  intros H.
  assert (T : forallb (fun k => String.eqb
                         (DateFns.addLeadingZeros (Z.of_nat k) 2)
                         (Spec.two (Z.of_nat k))) (seq 0 100) = true)
    by (vm_compute; reflexivity).
  rewrite forallb_forall in T. specialize (T (Z.to_nat n)).
  rewrite Z2Nat.id in T by lia. apply String.eqb_eq, T, in_seq. lia.
Qed.

Lemma format_isoLike (LocalTZA : Z -> Z) (t : Z) :
  DateFns.isValid t = true ->
  exists stamp, DateFns.format LocalTZA t = Some stamp /\ Spec.isoLike stamp.
Proof.
  intros V. unfold DateFns.format. rewrite V. eexists. split; [reflexivity|].
  destruct (civil_ranges (DateFns.LocalTime LocalTZA t / DateFns.msPerDay))
    as (M & D).
  destruct (yyyy_shape (DateFns.getFullYear LocalTZA t)) as (Y1 & Y2).
  exists (DateFns.yyyy (DateFns.getFullYear LocalTZA t)),
    (DateFns.getMonth LocalTZA t + 1), (DateFns.getDate LocalTZA t),
    (DateFns.getHours LocalTZA t), (DateFns.getMinutes LocalTZA t),
    (DateFns.getSeconds LocalTZA t).
  unfold DateFns.getMonth, DateFns.getDate, DateFns.getHours,
    DateFns.getMinutes, DateFns.getSeconds in *.
  assert (Hh := Z.mod_pos_bound (DateFns.LocalTime LocalTZA t / 3600000) 24).
  assert (Hm := Z.mod_pos_bound (DateFns.LocalTime LocalTZA t / 60000) 60).
  assert (Hs := Z.mod_pos_bound (DateFns.LocalTime LocalTZA t / 1000) 60).
  rewrite !addLeadingZeros_two by lia.
  repeat split; try assumption; lia.
Qed.

(** ** The text handed to the summarization *)

Lemma append_assoc (a b d : string) : (a +:+ b) +:+ d = a +:+ (b +:+ d).
Proof.
  induction a as [|c a IH]; [reflexivity|].
  exact (f_equal (String c) IH).
Qed.

(** A record added at the end adds its line at the end. *)
Lemma join_snoc (sep x : string) (l : list string) :
  l <> [] -> JS.join sep (l ++ [x]) = JS.join sep l +:+ sep +:+ x.
Proof.
  induction l as [|a l IH]; intros N; [now destruct N|].
  destruct l as [|b l]; [reflexivity|].
  change (JS.join sep ((a :: b :: l) ++ [x]))
    with (a +:+ sep +:+ JS.join sep ((b :: l) ++ [x])).
  rewrite IH by discriminate.
  change (JS.join sep (a :: b :: l)) with (a +:+ sep +:+ JS.join sep (b :: l)).
  now rewrite !append_assoc.
Qed.

Lemma line_isLine (LocalTZA : Z -> Z) (r : ScanResult) :
  DateFns.isValid (timestamp r) = true ->
  exists l, ScanHistory.line LocalTZA r = Some l /\ Spec.isLine r l.
Proof.
  intros V. destruct (format_isoLike LocalTZA _ V) as (stamp & F & I).
  exists (plateNumber r +:+ " at " +:+ stamp). split.
  - unfold ScanHistory.line. now rewrite F.
  - now exists stamp.
Qed.

Lemma lines_exist (LocalTZA : Z -> Z) (history : list ScanResult) :
  Forall (fun r => DateFns.isValid (timestamp r) = true) history ->
  exists lines,
    Forall2 (fun r l => ScanHistory.line LocalTZA r = Some l) history lines
    /\ Forall2 Spec.isLine history lines.
Proof.
  induction 1 as [|r history V _ (lines & L & I)].
  - exists []. split; constructor.
  - destruct (line_isLine LocalTZA r V) as (l & Hl & Il).
    exists (l :: lines). split; constructor; assumption.
Qed.

Example sampleLog_text :
  ScanHistory.historyStr (fun _ => 0) sampleLog
  = Some ("AAA-111 at 2023-11-14 22:13:20" +:+ newline
          +:+ "CCC-333 at 2023-11-14 22:15:20").
Proof. vm_compute. reflexivity. Qed.

(** ** Checks on concrete values *)

Example trim_sample : JS.trim " abc-123 " = "abc-123".
Proof. reflexivity. Qed.

Example trim_inner_blanks_stay : JS.trim "  DL 5SB  1029 " = "DL 5SB  1029".
Proof. reflexivity. Qed.

Example trim_line_ends :
  JS.trim (newline +:+ "ABC-1" +:+ newline) = "ABC-1".
Proof. reflexivity. Qed.

Example toUpperCase_sample : JS.toUpperCase "dl-5sb-1029 x" = "DL-5SB-1029 X".
Proof. reflexivity. Qed.

Example camera_request_parses :
  Flow.Image.InitiateScanWithPromptInputSchema
    {| Flow.Image.prompt := Flow.VString "Extract the plate.";
       Flow.Image.photoDataUri := Flow.VString sampleFrame |} = true
  /\ Flow.Image.InitiateScanWithPromptInputSchema
       {| Flow.Image.prompt := Flow.VUndefined;
          Flow.Image.photoDataUri := Flow.VString sampleFrame |} = true
  /\ Flow.Image.InitiateScanWithPromptInputSchema
       {| Flow.Image.prompt := Flow.VNull;
          Flow.Image.photoDataUri := Flow.VString sampleFrame |} = false.
Proof. repeat split. Qed.

Example format_epoch :
  DateFns.format (fun _ => 0) 0 = Some "1970-01-01 00:00:00".
Proof. vm_compute. reflexivity. Qed.

Example format_2023 :
  DateFns.format (fun _ => 3600000) 1700000000000 = Some "2023-11-14 23:13:20".
Proof. vm_compute. reflexivity. Qed.

Example format_leap :
  DateFns.format (fun _ => 0) 1709164800000 = Some "2024-02-29 00:00:00".
Proof. vm_compute. reflexivity. Qed.

Example format_before_epoch :
  DateFns.format (fun _ => 0) (-1) = Some "1969-12-31 23:59:59".
Proof. vm_compute. reflexivity. Qed.

(* ================================================================== *)
(** * Further properties of the handlers *)

(** ** Every capture ends *)

Lemma in_step_capturing (w : World) :
  in_step w -> isCapturing (ui w) = true ->
  exists q, pending w = [q].
Proof.
  unfold in_step. intros H C. rewrite C in H.
  destruct (pending w) as [|q [|q' rest]]; try discriminate. now exists q.
Qed.

Lemma settled_stream (c : component) (pick : nat) (o : settled) (w : World) :
  stream (ui (handleScan_settled c pick o w)) = stream (ui w).
Proof.
  destruct c, o as [r|]; simpl;
    unfold CameraScanner.handleScan_then, UpperScanner.handleScan_then,
      DemoScanner.handleScan_then, FlippedScanner.handleScan_then;
    repeat match goal with |- context [if ?b then _ else _] => destruct b end;
    reflexivity.
Qed.

Lemma every_step_ends (c : component) (pick : nat) (o : settled) (w : World) :
  in_step w ->
  isCapturing (ui w) = true ->
  isCapturing (ui (step c w (Settle o pick))) = false
  /\ pending (step c w (Settle o pick)) = []
  /\ history (step c w (Settle o pick)) = history w.
Proof.
  intros I C. destruct (in_step_capturing w I C) as (q & E).
  simpl. rewrite E. unfold handleScan_resume.
  destruct (settled_frame c pick o (take_pending w)) as (H & P & _).
  repeat split.
  - simpl. rewrite P. simpl. now rewrite E.
  - simpl. exact H.
Qed.

(** X1. Whatever the awaited call does (a plate, an empty answer, an
    error), the [finally] block runs: the capture is over, both flags are
    down, no call is left in flight and the scan button is enabled again
    whenever a stream is there. The History Log is not touched. *)
Theorem every_outcome_ends_capture
    (c : component) (pick : nat) (o : settled) (w : World) :
  in_step w ->
  isCapturing (ui w) = true ->
  isCapturing (ui (step c w (Settle o pick))) = false
  /\ isScanning (ui (step c w (Settle o pick))) = false
  /\ pending (step c w (Settle o pick)) = []
  /\ history (step c w (Settle o pick)) = history w
  /\ scanDisabled (ui (step c w (Settle o pick))) = initializingShown (ui w).
Proof.
  intros I C. destruct (in_step_capturing w I C) as (q & E).
  simpl. rewrite E. unfold handleScan_resume.
  destruct (settled_frame c pick o (take_pending w)) as (H & P & _).
  repeat split.
  - simpl. rewrite P. simpl. now rewrite E.
  - simpl. exact H.
  - unfold scanDisabled, initializingShown. simpl.
    now rewrite settled_stream.
Qed.

Lemma every_outcome_ends_capture_witness :
  isCapturing (ui (step Part000 (in_flight Part000) (Settle Rejected 7))) = false
  /\ pending (step Part000 (in_flight Part000) (Settle Rejected 7)) = [].
Proof.
  destruct (every_outcome_ends_capture Part000 7 Rejected (in_flight Part000))
    as (H1 & _ & H3 & _).
  - reflexivity.
  - reflexivity.
  - split; [exact H1 | exact H3].
Defined.

(** ** A call that fails *)

Lemma surfaced_catch (w : World) :
  existsb destructive (surfaced w (handleScan_catch w)) = true.
Proof. unfold handleScan_catch. now rewrite surfaced_one. Qed.

(** X2. When the awaited call rejects, every revision raises one
    destructive "Scan Failed" notification and nothing else changes but the
    flags: the staged plate and the History Log are what they were, and the
    workflow passes Capturing, Failed, then Staged or Idle according to
    what was staged before. *)
Theorem rejected_call_keeps_state
    (c : component) (pick : nat) (w : World) :
  isCapturing (ui w) = true ->
  pending w <> [] ->
  (exists t, toasts (step c w (Settle Rejected pick)) = toasts w ++ [t]
             /\ title t = "Scan Failed" /\ destructive t = true)
  /\ detectedPlate (ui (step c w (Settle Rejected pick))) = detectedPlate (ui w)
  /\ stream (ui (step c w (Settle Rejected pick))) = stream (ui w)
  /\ history (step c w (Settle Rejected pick)) = history w
  /\ settle_phases c pick Rejected (take_pending w)
     = [Capturing; Failed;
        if JS.truthy_opt (detectedPlate (ui w)) then Staged else Idle].
Proof.
  intros C P. destruct (pending w) as [|q rest] eqn:E; [now destruct P|].
  assert (S : handleScan_settled c pick Rejected (take_pending w)
              = handleScan_catch (take_pending w)) by now destruct c.
  simpl step. rewrite E. unfold settle_phases, phase_in, handleScan_resume.
  cbv zeta. rewrite S, surfaced_catch.
  unfold phase_of. simpl. rewrite C. simpl.
  repeat split. eexists. repeat split.
Qed.

Lemma rejected_call_keeps_state_witness :
  detectedPlate (ui (step ScanHistoryTsx (in_flight ScanHistoryTsx)
                       (Settle Rejected 0))) = None
  /\ settle_phases ScanHistoryTsx 0 Rejected
       (take_pending (in_flight ScanHistoryTsx))
     = [Capturing; Failed; Idle].
Proof.
  destruct (rejected_call_keeps_state ScanHistoryTsx 0
              (in_flight ScanHistoryTsx)) as (_ & H2 & _ & _ & H5).
  - reflexivity.
  - discriminate.
  - split; [exact H2 | exact H5].
Defined.

(** ** Before the call is made *)

(** X3. In the revisions that capture a frame, a canvas that gives no 2D
    context makes [handleScan] throw before the flow is called: no call is
    put in flight, one destructive "Scan Failed" notification is raised, the
    flags are down again at once and the staged plate and the History Log
    are what they were. *)
Theorem no_context_no_call
    (c : component) (photoDataUri : string) (w : World) :
  c <> Part000 ->
  ready w ->
  pending (step c w (Trigger false photoDataUri)) = []
  /\ isCapturing (ui (step c w (Trigger false photoDataUri))) = false
  /\ isScanning (ui (step c w (Trigger false photoDataUri))) = false
  /\ (exists t, toasts (step c w (Trigger false photoDataUri)) = toasts w ++ [t]
                /\ title t = "Scan Failed" /\ destructive t = true)
  /\ detectedPlate (ui (step c w (Trigger false photoDataUri)))
     = detectedPlate (ui w)
  /\ history (step c w (Trigger false photoDataUri)) = history w.
Proof.
  intros Hc (C & V & K & P).
  destruct c; [| | now destruct Hc |]; simpl;
    unfold CameraScanner.handleScan_start, UpperScanner.handleScan_start,
      FlippedScanner.handleScan_start;
    rewrite C, V, K; simpl; rewrite P;
    (repeat split; eexists; repeat split).
Qed.

Lemma no_context_no_call_witness :
  pending (step CameraScannerTsx (mounted true true [])
             (Trigger false sampleFrame)) = []
  /\ isCapturing (ui (step CameraScannerTsx (mounted true true [])
                        (Trigger false sampleFrame))) = false.
Proof.
  destruct (no_context_no_call CameraScannerTsx sampleFrame (mounted true true []))
    as (H1 & H2 & _).
  - discriminate.
  - repeat split.
  - split; [exact H1 | exact H2].
Defined.

(** X4. In the revisions that capture a frame, [handleScan] does nothing at
    all while the video element or the canvas is not there, whatever else
    the state is. *)
Theorem missing_ref_blocks_capture
    (c : component) (ctx : bool) (photoDataUri : string) (w : World) :
  c <> Part000 ->
  videoRef (ui w) && canvasRef (ui w) = false ->
  step c w (Trigger ctx photoDataUri) = w.
Proof.
  intros Hc R.
  assert (G : isCapturing (ui w) || negb (videoRef (ui w))
              || negb (canvasRef (ui w)) = true).
  { destruct (isCapturing (ui w)), (videoRef (ui w)), (canvasRef (ui w));
      try reflexivity; discriminate R. }
  destruct c; [| | now destruct Hc |]; simpl;
    unfold CameraScanner.handleScan_start, UpperScanner.handleScan_start,
      FlippedScanner.handleScan_start;
    now rewrite G.
Qed.

Lemma missing_ref_blocks_capture_witness :
  step Part001 (mounted true false []) (Trigger true sampleFrame)
  = mounted true false [].
Proof.
  apply (missing_ref_blocks_capture Part001 true sampleFrame
           (mounted true false [])).
  - discriminate.
  - reflexivity.
Defined.

(** ** The calls a component makes *)

Lemma start_fits (c : component) (ctx : bool) (photo : string) (w : World) :
  forallb (fits c) (pending w) = true ->
  forallb (fits c) (pending (handleScan_start c ctx photo w)) = true.
Proof.
  intros H.
  destruct c; simpl;
    unfold CameraScanner.handleScan_start, UpperScanner.handleScan_start,
      DemoScanner.handleScan_start, FlippedScanner.handleScan_start;
    repeat match goal with |- context [if ?b then _ else _] => destruct b end;
    simpl; try exact H; rewrite forallb_app, H; reflexivity.
Qed.

Lemma step_fits (c : component) (w : World) (e : event) :
  forallb (fits c) (pending w) = true ->
  forallb (fits c) (pending (step c w e)) = true.
Proof.
  intros H. destruct e as [ctx photo|o pick|fresh now|]; simpl.
  - now apply start_fits.
  - destruct (pending w) as [|q rest] eqn:E; [now rewrite E|].
    unfold handleScan_resume.
    destruct (finally_resets (handleScan_settled c pick o (take_pending w)))
      as (_ & _ & _ & _ & _ & ->).
    destruct (settled_frame c pick o (take_pending w)) as (_ & -> & _).
    simpl. rewrite E. simpl. simpl in H.
    apply andb_true_iff in H. tauto.
  - destruct (savePlate_frame fresh now w) as (-> & _). exact H.
  - exact H.
Qed.

(** X5. Every call a component has in flight, in any state it reaches after
    mounting, passes the input check of the flow of its revision: the
    frame-capturing revisions send a string [photoDataUri] (with a string
    prompt or none), the demo revision sends a string prompt. No call of a
    component is ever refused as invalid input. *)
Theorem calls_fit_their_flow
    (c : component) (video canvas : bool) (log : list ScanResult)
    (es : list event)
    (imageModel : Flow.Image.InitiateScanWithPromptInput -> Flow.reply)
    (textModel : Flow.Text.InitiateScanWithPromptInput -> Flow.reply) :
  Forall (fun q =>
      fits c q = true
      /\ match q with
         | Flow.ImageCall i =>
             Flow.Image.image_present i = true
             /\ Flow.Image.initiateScanWithPrompt imageModel i
                <> inl Flow.InvalidInput
         | Flow.TextCall i =>
             Flow.Text.initiateScanWithPrompt textModel i
             <> inl Flow.InvalidInput
         end)
    (pending (run c (mounted video canvas log) es)).
Proof.
  assert (F : forall es w, forallb (fits c) (pending w) = true ->
            forallb (fits c) (pending (run c w es)) = true).
  { induction es0 as [|e es0 IH]; intros w H; [exact H|].
    simpl. apply IH. now apply step_fits. }
  specialize (F es (mounted video canvas log) eq_refl).
  apply Forall_forall. intros q Hq.
  rewrite forallb_forall in F. specialize (F q).
  assert (Fq : fits c q = true)
    by (apply F; now apply list_elem_of_In).
  split; [exact Fq|].
  destruct q as [i|i].
  - assert (T : Flow.Text.InitiateScanWithPromptInputSchema i = true)
      by (destruct c; simpl in Fq; congruence).
    unfold Flow.Text.initiateScanWithPrompt.
    rewrite defineFlow_invalid. congruence.
  - assert (T : Flow.Image.InitiateScanWithPromptInputSchema i = true)
      by (destruct c; simpl in Fq; congruence).
    split.
    + unfold Flow.Image.InitiateScanWithPromptInputSchema in T.
      apply andb_true_iff in T. destruct T as [_ T].
      unfold Flow.Image.image_present.
      destruct (Flow.Image.photoDataUri i); simpl in T; congruence.
    + unfold Flow.Image.initiateScanWithPrompt.
      rewrite defineFlow_invalid. congruence.
Qed.

(** ** The two flags *)

Lemma step_flags_agree (c : component) (w : World) (e : event) :
  flags_agree w -> flags_agree (step c w e).
Proof.
  unfold flags_agree. intros H.
  destruct e as [ctx photo|o pick|fresh now|]; simpl.
  - destruct c; simpl;
      unfold CameraScanner.handleScan_start, UpperScanner.handleScan_start,
        DemoScanner.handleScan_start, FlippedScanner.handleScan_start;
      destruct (isCapturing (ui w)) eqn:C, (videoRef (ui w)), (canvasRef (ui w)),
        ctx; simpl; rewrite ?C; try exact H; reflexivity.
  - destruct (pending w); [exact H | reflexivity].
  - unfold savePlate. destruct (detectedPlate (ui w)) as [p|]; [|exact H].
    destruct (JS.truthy p); [exact H | exact H].
  - exact H.
Qed.

Lemma run_flags_agree (c : component) (es : list event) (w : World) :
  flags_agree w -> flags_agree (run c w es).
Proof.
  revert w. induction es as [|e es IH]; intros w H; [exact H|].
  simpl. apply IH. now apply step_flags_agree.
Qed.

(** X6. [isScanning] and [isCapturing] are raised and lowered together: in
    every state a component reaches after mounting they are equal. So the
    scan line is shown exactly while a capture is in flight, and whenever
    the card with the plate is shown no call is in flight and the scan
    button is enabled if a stream is there. *)
Theorem scanning_flag_follows_capturing
    (c : component) (video canvas : bool) (log : list ScanResult)
    (es : list event) :
  scanLineShown (ui (run c (mounted video canvas log) es))
  = isCapturing (ui (run c (mounted video canvas log) es))
  /\ (cardShown (ui (run c (mounted video canvas log) es)) = true ->
      pending (run c (mounted video canvas log) es) = []
      /\ scanDisabled (ui (run c (mounted video canvas log) es))
         = initializingShown (ui (run c (mounted video canvas log) es))).
Proof.
  pose proof (run_flags_agree c es (mounted video canvas log) eq_refl) as F.
  pose proof (run_in_step c es _ (mounted_in_step video canvas log)) as I.
  set (w := run c (mounted video canvas log) es) in *.
  unfold flags_agree in F. unfold in_step in I.
  split; [exact F|].
  unfold cardShown, scanDisabled. intros S.
  apply andb_true_iff in S. destruct S as [_ S].
  rewrite F in S. destruct (isCapturing (ui w)); [discriminate|].
  split; [|reflexivity].
  destruct (pending w); [reflexivity | discriminate].
Qed.

(** ** What the page offers *)

(** X7. While no stream is there (before [getUserMedia] answers, or after it
    was refused), nothing is staged and nothing is in flight, the page
    offers nothing that has an effect: whatever is pressed, in whatever
    order, the component and the History Log stay as they are and no call
    to the flow is made. *)
Theorem no_stream_no_capture
    (c : component) (w : World) (es : list event) :
  stream (ui w) = None ->
  JS.truthy_opt (detectedPlate (ui w)) = false ->
  pending w = [] ->
  use c w es = w.
Proof.
  intros S D P. induction es as [|e es IH]; [reflexivity|].
  simpl. replace (press c w e) with w; [exact IH|].
  unfold press, offered, scanDisabled, initializingShown, cardShown.
  rewrite S, D, orb_true_r. simpl.
  destruct e; simpl; try reflexivity. now rewrite P.
Qed.

Lemma no_stream_no_capture_witness :
  use CameraScannerTsx
    (Lifecycle.world
       (Lifecycle.setupCamera_rejected (Lifecycle.mount true true [] ∅)))
    [Trigger true sampleFrame; Save 1 0; Redo; Settle (Fulfilled "AAA-111") 0]
  = Lifecycle.world
      (Lifecycle.setupCamera_rejected (Lifecycle.mount true true [] ∅)).
Proof.
  apply (no_stream_no_capture CameraScannerTsx
           (Lifecycle.world
              (Lifecycle.setupCamera_rejected (Lifecycle.mount true true [] ∅)))).
  - reflexivity.
  - reflexivity.
  - reflexivity.
Defined.

(** X8. While a capture is in flight the page offers neither the scan
    button nor Save nor Redo: until the call settles, nothing the user
    presses changes anything. There is no way to cancel a capture or to
    save the plate staged before it. *)
Theorem nothing_offered_in_flight
    (c : component) (w : World) (es : list event) :
  isCapturing (ui w) = true ->
  isScanning (ui w) = true ->
  forallb (fun e => negb (is_settle e)) es = true ->
  use c w es = w.
Proof.
  intros C S N. induction es as [|e es IH]; [reflexivity|].
  simpl in N. apply andb_true_iff in N. destruct N as [Ne N].
  simpl. replace (press c w e) with w; [now apply IH|].
  unfold press, offered, scanDisabled, cardShown. rewrite C, S, andb_false_r.
  destruct e; simpl; try reflexivity. discriminate Ne.
Qed.

Lemma nothing_offered_in_flight_witness :
  use CameraScannerTsx
    (step CameraScannerTsx (answered CameraScannerTsx "AAA-111")
       (Trigger true sampleFrame))
    [Save 1 0; Redo; Trigger true sampleFrame]
  = step CameraScannerTsx (answered CameraScannerTsx "AAA-111")
      (Trigger true sampleFrame).
Proof.
  apply (nothing_offered_in_flight CameraScannerTsx
           (step CameraScannerTsx (answered CameraScannerTsx "AAA-111")
              (Trigger true sampleFrame))).
  - reflexivity.
  - reflexivity.
  - reflexivity.
Defined.

(** ** Saving *)

(** X9. With a plate staged, Save hands exactly that string to [onScan],
    clears the staged plate (so the card goes away) and raises the "Saved"
    notification that names it; a further Save, pressed or called, does
    nothing, so one staged plate is recorded once. *)
Theorem save_hands_over_staged_plate
    (c : component) (fresh fresh' : nat) (now now' : Z)
    (plate : string) (w : World) :
  detectedPlate (ui w) = Some plate ->
  JS.truthy plate = true ->
  history (step c w (Save fresh now)) = onScan fresh now plate (history w)
  /\ detectedPlate (ui (step c w (Save fresh now))) = None
  /\ cardShown (ui (step c w (Save fresh now))) = false
  /\ toasts (step c w (Save fresh now))
     = toasts w ++ [ {| title := "Saved";
                        description := "Plate " +:+ plate +:+ " added to history.";
                        destructive := false |} ]
  /\ pending (step c w (Save fresh now)) = pending w
  /\ step c (step c w (Save fresh now)) (Save fresh' now')
     = step c w (Save fresh now).
Proof.
  intros D T. simpl.
  assert (E : savePlate fresh now w
              = toast {| title := "Saved";
                         description := "Plate " +:+ plate +:+ " added to history.";
                         destructive := false |}
                  (update (setDetectedPlate None)
                     (with_history (onScan fresh now plate) w)))
    by (unfold savePlate; now rewrite D, T).
  rewrite E. repeat split.
Qed.

Lemma save_hands_over_staged_plate_witness :
  detectedPlate (ui (step CameraScannerTsx (answered CameraScannerTsx "AAA-111")
                       (Save 1 1700000000000))) = None
  /\ step CameraScannerTsx
       (step CameraScannerTsx (answered CameraScannerTsx "AAA-111")
          (Save 1 1700000000000))
       (Save 2 1700000000001)
     = step CameraScannerTsx (answered CameraScannerTsx "AAA-111")
         (Save 1 1700000000000).
Proof.
  destruct (save_hands_over_staged_plate CameraScannerTsx 1 2
              1700000000000 1700000000001 "AAA-111"
              (answered CameraScannerTsx "AAA-111"))
    as (_ & H2 & _ & _ & _ & H6).
  - reflexivity.
  - reflexivity.
  - split; [exact H2 | exact H6].
Defined.

(** ** The demo revision *)

(** X10. In unnamed/part_000 a call that fulfils always leaves a plate
    staged, whatever it answered: the answer itself when it is not the empty
    string, one of the five mock plates otherwise. The workflow is then in
    Staged; it can leave a capture without a plate only through an error. *)
Theorem demo_always_stages
    (pick : nat) (plateNumber : string) (w : World) :
  (pick < 5)%nat ->
  pending w <> [] ->
  JS.truthy_opt
    (detectedPlate (ui (step Part000 w (Settle (Fulfilled plateNumber) pick))))
  = true
  /\ phase_of (step Part000 w (Settle (Fulfilled plateNumber) pick)) = Staged
  /\ (plateNumber <> EmptyString ->
      detectedPlate (ui (step Part000 w (Settle (Fulfilled plateNumber) pick)))
      = Some plateNumber)
  /\ (plateNumber = EmptyString ->
      exists mock,
        mock ∈ DemoScanner.mockPlates
        /\ detectedPlate (ui (step Part000 w (Settle (Fulfilled plateNumber) pick)))
           = Some mock).
Proof.
  intros L P. destruct (pending w) as [|q rest] eqn:E; [now destruct P|].
  simpl step. rewrite E. unfold handleScan_resume, phase_of. simpl.
  unfold DemoScanner.handleScan_then.
  destruct plateNumber as [|a r]; simpl.
  - do 5 (destruct pick as [|pick]; [simpl; repeat split;
      try (intros N; now destruct N);
      intros _; eexists; (split; [|reflexivity]); set_solver |]).
    lia.
  - repeat split. intros N. discriminate N.
Qed.

Lemma demo_always_stages_witness :
  phase_of (step Part000 (in_flight Part000) (Settle (Fulfilled EmptyString) 4))
  = Staged.
Proof.
  destruct (demo_always_stages 4 EmptyString (in_flight Part000))
    as (_ & H & _).
  - lia.
  - discriminate.
  - exact H.
Defined.

(** ** A capture served by the flow *)

Lemma settle_of_fulfilled {Input : Type} (inputSchema : Input -> bool)
    (model : Input -> Flow.reply) (input : Input) (s : string) :
  settle_of (Flow.defineFlow inputSchema
               Flow.InitiateScanWithPromptOutputSchema model input)
  = Fulfilled s ->
  model input = Flow.Output (Some {| Flow.plateNumber := Flow.VString s |}).
Proof.
  unfold settle_of.
  destruct (Flow.defineFlow _ _ _ _) as [e|out] eqn:R; [discriminate|].
  apply defineFlow_returns in R. destruct R as (R & _).
  destruct out as [v]. simpl. destruct v; try discriminate.
  now intros [= <-].
Qed.

Lemma not_blank_trim (s : string) :
  JS.trim s <> EmptyString <-> JS.blank s = false.
Proof.
  rewrite trim_blank. destruct (JS.blank s); split; congruence.
Qed.

Lemma settle_stages (c : component) (pick : nat) (o : settled) (w : World) :
  c <> Part000 ->
  pending w <> [] ->
  detectedPlate (ui (step c w (Settle o pick)))
  = match o with
    | Fulfilled s =>
        if JS.blank s then detectedPlate (ui w) else Some (staged_form c s)
    | Rejected => detectedPlate (ui w)
    end.
Proof.
  intros Hc P. destruct (pending w) as [|q rest] eqn:E; [now destruct P|].
  simpl step. rewrite E. unfold handleScan_resume.
  destruct o as [s|]; [|now destruct c].
  destruct (JS.blank s) eqn:B.
  - apply trim_blank in B.
    destruct c; [| | now destruct Hc |]; simpl;
      rewrite ?(blank_then_camera _ _ B), ?(blank_then_upper _ _ B),
        ?(blank_then_flipped _ _ B); reflexivity.
  - apply not_blank_trim in B.
    destruct c; [| | now destruct Hc |]; simpl;
      rewrite ?(nonblank_then_camera _ _ B), ?(nonblank_then_upper _ _ B),
        ?(nonblank_then_flipped _ _ B); reflexivity.
Qed.

(** The call a frame-capturing revision puts in flight carries the frame. *)
Lemma start_call (c : component) (photo : string) (w : World) :
  c <> Part000 ->
  ready w ->
  exists i,
    Flow.Image.photoDataUri i = Flow.VString photo
    /\ pending (step c w (Trigger true photo)) = [Flow.ImageCall i]
    /\ isCapturing (ui (step c w (Trigger true photo))) = true
    /\ detectedPlate (ui (step c w (Trigger true photo))) = detectedPlate (ui w)
    /\ history (step c w (Trigger true photo)) = history w.
Proof.
  intros Hc (C & V & K & P).
  destruct c; [| | now destruct Hc |]; simpl;
    unfold CameraScanner.handleScan_start, UpperScanner.handleScan_start,
      FlippedScanner.handleScan_start;
    rewrite C, V, K; simpl; rewrite P; simpl;
    (eexists; refine (conj _ (conj eq_refl _)); [reflexivity | repeat split]).
Qed.

(** X12. A capture of a frame-capturing revision, started from a ready
    component and answered by the image flow, whatever the model behind the
    flow does: the capture ends with nothing in flight and the History Log
    untouched, and the staged plate either is what it was or is the string
    the model returned for the captured frame (upper-cased in
    scan-history.tsx), which then holds a character other than white space.
    The component never stages a plate the model did not return. *)
Theorem served_capture_stages_only_the_answer
    (c : component)
    (imageModel : Flow.Image.InitiateScanWithPromptInput -> Flow.reply)
    (textModel : Flow.Text.InitiateScanWithPromptInput -> Flow.reply)
    (photoDataUri : string) (pick : nat) (w : World) :
  c <> Part000 ->
  ready w ->
  let w' := serve_pending c imageModel textModel pick
              (step c w (Trigger true photoDataUri)) in
  isCapturing (ui w') = false
  /\ pending w' = []
  /\ history w' = history w
  /\ (detectedPlate (ui w') = detectedPlate (ui w)
      \/ exists i s,
           Flow.Image.photoDataUri i = Flow.VString photoDataUri
           /\ imageModel i
              = Flow.Output (Some {| Flow.plateNumber := Flow.VString s |})
           /\ JS.blank s = false
           /\ detectedPlate (ui w') = Some (staged_form c s)).
Proof.
  intros Hc R. cbv zeta.
  destruct (start_call c photoDataUri w Hc R) as (i & Hi & P1 & C1 & D1 & H1).
  set (w1 := step c w (Trigger true photoDataUri)) in *.
  unfold serve_pending. rewrite P1.
  set (o := serve imageModel textModel (Flow.ImageCall i)).
  assert (I1 : in_step w1) by (unfold in_step; now rewrite P1, C1).
  destruct (every_step_ends c pick o w1 I1 C1) as (E1 & E3 & E4).
  split; [exact E1|]. split; [exact E3|]. split; [now rewrite E4|].
  rewrite (settle_stages c pick o w1 Hc) by (rewrite P1; discriminate).
  destruct o as [s|] eqn:O; [|left; exact D1].
  destruct (JS.blank s) eqn:B; [left; exact D1|].
  right. exists i, s. repeat split; try assumption.
  subst o. simpl in O. now apply settle_of_fulfilled in O.
Qed.

Lemma served_capture_stages_only_the_answer_witness :
  detectedPlate
    (ui (serve_pending CameraScannerTsx echoPrompt (fun _ => Flow.Threw) 0
           (step CameraScannerTsx (mounted true true [])
              (Trigger true sampleFrame))))
  = None
  \/ exists i s,
       Flow.Image.photoDataUri i = Flow.VString sampleFrame
       /\ echoPrompt i
          = Flow.Output (Some {| Flow.plateNumber := Flow.VString s |})
       /\ JS.blank s = false
       /\ detectedPlate
            (ui (serve_pending CameraScannerTsx echoPrompt (fun _ => Flow.Threw) 0
                   (step CameraScannerTsx (mounted true true [])
                      (Trigger true sampleFrame))))
          = Some (staged_form CameraScannerTsx s).
Proof.
  destruct (served_capture_stages_only_the_answer CameraScannerTsx echoPrompt
              (fun _ => Flow.Threw) sampleFrame 0 (mounted true true []))
    as (_ & _ & _ & H).
  - discriminate.
  - repeat split.
  - exact H.
Defined.

Example served_capture_sample :
  detectedPlate
    (ui (serve_pending ScanHistoryTsx
           (fun _ => Flow.Output (Some {| Flow.plateNumber := Flow.VString "ka-01 ab" |}))
           (fun _ => Flow.Threw) 0
           (step ScanHistoryTsx (mounted true true [])
              (Trigger true sampleFrame))))
  = Some "KA-01 AB".
Proof. reflexivity. Qed.

(** ** Summary requests *)

(** X13. [handleGenerateSummary] has no in-flight guard. A request on a log
    that serializes raises both flags, hides the previous report behind the
    loader without clearing it, and hands the text to the flow; a second
    request before the first has settled hands the same text over again, so
    two summary calls are then outstanding. *)
Theorem summary_requests_are_not_serialized
    (LocalTZA : Z -> Z) (log : list ScanResult) (text : string)
    (w : ScanHistory.World) :
  log <> [] ->
  ScanHistory.historyStr LocalTZA log = Some text ->
  ScanHistory.isSummarizing
    (ScanHistory.ui (ScanHistory.handleGenerateSummary_start LocalTZA log w))
  = true
  /\ ScanHistory.isSummaryOpen
       (ScanHistory.ui (ScanHistory.handleGenerateSummary_start LocalTZA log w))
     = true
  /\ ScanHistory.summary
       (ScanHistory.ui (ScanHistory.handleGenerateSummary_start LocalTZA log w))
     = ScanHistory.summary (ScanHistory.ui w)
  /\ reportShown
       (ScanHistory.ui (ScanHistory.handleGenerateSummary_start LocalTZA log w))
     = None
  /\ ScanHistory.calls
       (ScanHistory.handleGenerateSummary_start LocalTZA log
          (ScanHistory.handleGenerateSummary_start LocalTZA log w))
     = ScanHistory.calls w ++ [text; text].
Proof.
  intros N H. unfold ScanHistory.handleGenerateSummary_start.
  destruct log as [|r rest]; [now destruct N|].
  simpl length. simpl Nat.eqb. cbv iota. rewrite H. simpl.
  repeat split. now rewrite <- app_assoc.
Qed.

Lemma summary_requests_are_not_serialized_witness :
  length
    (ScanHistory.calls
       (ScanHistory.handleGenerateSummary_start (fun _ => 0) sampleLog
          (ScanHistory.handleGenerateSummary_start (fun _ => 0) sampleLog
             {| ScanHistory.ui :=
                  {| ScanHistory.summary := None;
                     ScanHistory.isSummarizing := false;
                     ScanHistory.isSummaryOpen := false |};
                ScanHistory.calls := [] |})))
  = 2%nat.
Proof.
  destruct (summary_requests_are_not_serialized (fun _ => 0) sampleLog
              ("AAA-111 at 2023-11-14 22:13:20" +:+ newline
               +:+ "CCC-333 at 2023-11-14 22:15:20")
              {| ScanHistory.ui :=
                   {| ScanHistory.summary := None;
                      ScanHistory.isSummarizing := false;
                      ScanHistory.isSummaryOpen := false |};
                 ScanHistory.calls := [] |}) as (_ & _ & _ & _ & H).
  - discriminate.
  - vm_compute. reflexivity.
  - rewrite H. reflexivity.
Defined.

(** X14. A summary request on a log that is not empty, answered by the
    flow, always ends with the dialog open, the loader gone and a text to
    show: the summary the model returned when the log serialized and the
    flow returned, and the fixed failure text in every other case (the
    model threw, gave nothing or gave no string, or a timestamp of the log
    is not a valid date, in which case the flow is not called at all). *)
Theorem summary_request_always_reports
    (LocalTZA : Z -> Z)
    (model : SummaryFlow.SummarizeScanHistoryInput -> SummaryFlow.reply)
    (log : list ScanResult) (w : ScanHistory.World) :
  log <> [] ->
  ScanHistory.isSummarizing (ScanHistory.ui (analyze LocalTZA model log w))
  = false
  /\ ScanHistory.isSummaryOpen (ScanHistory.ui (analyze LocalTZA model log w))
     = true
  /\ reportShown (ScanHistory.ui (analyze LocalTZA model log w))
     = Some
         match ScanHistory.historyStr LocalTZA log with
         | Some text =>
             match model {| SummaryFlow.scanHistory := Flow.VString text |} with
             | SummaryFlow.Output
                 (Some {| SummaryFlow.summary := Flow.VString s |}) => s
             | _ => "Failed to generate summary. Please try again later."
             end
         | None => "Failed to generate summary. Please try again later."
         end
  /\ ScanHistory.calls (analyze LocalTZA model log w)
     = ScanHistory.calls w
       ++ match ScanHistory.historyStr LocalTZA log with
          | Some text => [text]
          | None => []
          end.
Proof.
  intros N. unfold analyze, analyzeShown.
  destruct log as [|r rest]; [now destruct N|].
  change (0 <? length (r :: rest))%nat with true. cbv iota.
  unfold ScanHistory.handleGenerateSummary_start.
  change (length (r :: rest) =? 0)%nat with false. cbv iota.
  destruct (ScanHistory.historyStr LocalTZA (r :: rest)) as [text|].
  - unfold SummaryFlow.awaited, SummaryFlow.summarizeScanHistory. simpl.
    destruct (model _) as [|[[v]|]]; simpl; try (repeat split).
    all: destruct v; repeat split.
  - simpl. repeat split. now rewrite app_nil_r.
Qed.

Lemma summary_request_always_reports_witness :
  reportShown
    (ScanHistory.ui
       (analyze (fun _ => 0) (fun _ => SummaryFlow.Threw) sampleLog
          {| ScanHistory.ui :=
               {| ScanHistory.summary := None;
                  ScanHistory.isSummarizing := false;
                  ScanHistory.isSummaryOpen := false |};
             ScanHistory.calls := [] |}))
  = Some "Failed to generate summary. Please try again later.".
Proof.
  destruct (summary_request_always_reports (fun _ => 0)
              (fun _ => SummaryFlow.Threw) sampleLog
              {| ScanHistory.ui :=
                   {| ScanHistory.summary := None;
                      ScanHistory.isSummarizing := false;
                      ScanHistory.isSummaryOpen := false |};
                 ScanHistory.calls := [] |}) as (_ & _ & H & _).
  - discriminate.
  - rewrite H. vm_compute. reflexivity.
Defined.

(** X15. The summary flow refuses an input exactly when its [scanHistory] is
    not a string. The empty string is a string: nothing in the flow refuses
    an empty history, which only the guard of [handleGenerateSummary] keeps
    away from it. A call that returns hands back the output of the model,
    whose [summary] is a string. *)
Theorem summary_flow_accepts_any_string
    (model : SummaryFlow.SummarizeScanHistoryInput -> SummaryFlow.reply)
    (input : SummaryFlow.SummarizeScanHistoryInput) :
  (SummaryFlow.summarizeScanHistory model input = inl Flow.InvalidInput
   <-> forall text, SummaryFlow.scanHistory input <> Flow.VString text)
  /\ SummaryFlow.summarizeScanHistory model
       {| SummaryFlow.scanHistory := Flow.VString EmptyString |}
     <> inl Flow.InvalidInput
  /\ (forall out,
        SummaryFlow.summarizeScanHistory model input = inr out ->
        model input = SummaryFlow.Output (Some out)
        /\ exists s, SummaryFlow.summary out = Flow.VString s).
Proof.
  unfold SummaryFlow.summarizeScanHistory,
    SummaryFlow.SummarizeScanHistoryInputSchema,
    SummaryFlow.SummarizeScanHistoryOutputSchema.
  split; [|split].
  - destruct (SummaryFlow.scanHistory input) as [| | | |s]; simpl;
      (split; [intros _ text; discriminate | reflexivity])
      || (split; [|intros H; now destruct (H s)]).
    destruct (model input) as [|[o|]]; try discriminate.
    destruct (SummaryFlow.summary o); discriminate.
  - simpl. destruct (model _) as [|[o|]]; try discriminate.
    destruct (SummaryFlow.summary o); discriminate.
  - intros out.
    destruct (SummaryFlow.scanHistory input); simpl; try discriminate.
    destruct (model input) as [|[o|]]; try discriminate.
    destruct (SummaryFlow.summary o) eqn:S; simpl; try discriminate.
    intros [= <-]. split; [reflexivity | eauto].
Qed.

(** ** What the lines of the summary text tell apart *)

Lemma format_by_second (LocalTZA : Z -> Z) (t1 t2 : Z) :
  DateFns.isValid t1 = DateFns.isValid t2 ->
  DateFns.LocalTime LocalTZA t1 / 1000 = DateFns.LocalTime LocalTZA t2 / 1000 ->
  DateFns.format LocalTZA t1 = DateFns.format LocalTZA t2.
Proof.
  intros V S.
  assert (D : forall k, 0 < k ->
            DateFns.LocalTime LocalTZA t1 / (1000 * k)
            = DateFns.LocalTime LocalTZA t2 / (1000 * k)).
  { intros k Hk. rewrite <- !Z.div_div by lia. now rewrite S. }
  unfold DateFns.format, DateFns.getFullYear, DateFns.getMonth,
    DateFns.getDate, DateFns.getHours, DateFns.getMinutes,
    DateFns.getSeconds, DateFns.msPerDay.
  change 86400000 with (1000 * 86400).
  change 3600000 with (1000 * 3600).
  change 60000 with (1000 * 60).
  rewrite !D by lia. rewrite S, V. reflexivity.
Qed.

(** X16. The text for the summary keeps the time of a scan to the second:
    two records with the same plate whose valid timestamps fall in the same
    second of local time give the same line, so the summarization cannot
    tell them apart, whatever their identifiers. *)
Theorem same_second_same_line
    (LocalTZA : Z -> Z) (r1 r2 : ScanResult) :
  plateNumber r1 = plateNumber r2 ->
  DateFns.isValid (timestamp r1) = true ->
  DateFns.isValid (timestamp r2) = true ->
  DateFns.LocalTime LocalTZA (timestamp r1) / 1000
  = DateFns.LocalTime LocalTZA (timestamp r2) / 1000 ->
  ScanHistory.line LocalTZA r1 = ScanHistory.line LocalTZA r2.
Proof.
  intros P V1 V2 S. unfold ScanHistory.line.
  rewrite (format_by_second LocalTZA (timestamp r1) (timestamp r2))
    by congruence.
  now rewrite P.
Qed.

Lemma same_second_same_line_witness :
  ScanHistory.line (fun _ => 0)
    {| id := 1; plateNumber := "AAA-111"; timestamp := 1700000000000 |}
  = ScanHistory.line (fun _ => 0)
      {| id := 2; plateNumber := "AAA-111"; timestamp := 1700000000999 |}.
Proof.
  apply (same_second_same_line (fun _ => 0)
           {| id := 1; plateNumber := "AAA-111"; timestamp := 1700000000000 |}
           {| id := 2; plateNumber := "AAA-111"; timestamp := 1700000000999 |});
    reflexivity.
Defined.

Lemma lineBreaks_app (a b : string) :
  lineBreaks (a +:+ b) = (lineBreaks a + lineBreaks b)%nat.
Proof.
  induction a as [|c a IH]; [reflexivity|].
  change (String c a +:+ b) with (String c (a +:+ b)).
  cbn [lineBreaks]. rewrite IH. lia.
Qed.

Lemma digit_no_break (c : ascii) :
  Spec.isDigit c = true -> Ascii.eqb c (ascii_of_nat 10) = false.
Proof.
  intros D. destruct (Ascii.eqb_spec c (ascii_of_nat 10)) as [->|]; [|reflexivity].
  discriminate D.
Qed.

Lemma digits_no_break (s : string) :
  Spec.all_digits s = true -> lineBreaks s = 0%nat.
Proof.
  induction s as [|c r IH]; [reflexivity|].
  cbn [Spec.all_digits lineBreaks]. intros H.
  apply andb_true_iff in H. destruct H as [Hc Hr].
  now rewrite (digit_no_break c Hc), (IH Hr).
Qed.

Lemma two_no_break (n : Z) : 0 <= n < 100 -> lineBreaks (Spec.two n) = 0%nat.
Proof.
  intros H. apply digits_no_break. unfold Spec.two. cbn [Spec.all_digits].
  rewrite !digit_isDigit; [reflexivity | |].
  - apply Z.mod_pos_bound. lia.
  - split; [apply Z.div_pos; lia | apply Z.div_lt_upper_bound; lia].
Qed.

Lemma isoLike_no_break (stamp : string) :
  Spec.isoLike stamp -> lineBreaks stamp = 0%nat.
Proof.
  intros (y & mo & d & h & mi & sec & -> & Y & _ & ? & ? & ? & ? & ?).
  rewrite !lineBreaks_app, (digits_no_break y Y), !two_no_break by lia.
  reflexivity.
Qed.

Lemma join_lineBreaks (lines : list string) :
  Forall (fun l => lineBreaks l = 0%nat) lines ->
  lineBreaks (JS.join newline lines) = (length lines - 1)%nat.
Proof.
  induction 1 as [|l lines Hl F IH]; [reflexivity|].
  destruct lines as [|l' lines]; [simpl; rewrite Hl; reflexivity|].
  change (JS.join newline (l :: l' :: lines))
    with (l +:+ newline +:+ JS.join newline (l' :: lines)).
  rewrite !lineBreaks_app, Hl, IH. simpl. lia.
Qed.

(** X17. When no plate of the log holds a line break (and the timestamps
    are valid), the text for the summary has exactly one line per record:
    its line breaks number one less than the records. The timestamps never
    add a line break; a plate that holds one, which the scanner stages
    untrimmed, is the only way to get more lines than records. *)
Theorem one_text_line_per_record
    (LocalTZA : Z -> Z) (log : list ScanResult) :
  Forall (fun r => DateFns.isValid (timestamp r) = true) log ->
  Forall (fun r => lineBreaks (plateNumber r) = 0%nat) log ->
  exists text,
    ScanHistory.historyStr LocalTZA log = Some text
    /\ lineBreaks text = (length log - 1)%nat.
Proof.
  intros V B. destruct (lines_exist LocalTZA log V) as (lines & L & I).
  exists (JS.join newline lines). split.
  - unfold ScanHistory.historyStr. now rewrite (mapM_Some_2 _ _ _ L).
  - rewrite (Forall2_length _ _ _ I). apply join_lineBreaks.
    clear L V. induction I as [|r l log lines (stamp & -> & S) I IH];
      [constructor|].
    inversion B as [|? ? Br B']; subst.
    constructor; [|now apply IH].
    rewrite !lineBreaks_app, Br, (isoLike_no_break stamp S). reflexivity.
Qed.

Lemma one_text_line_per_record_witness :
  exists text,
    ScanHistory.historyStr (fun _ => 0) sampleLog = Some text
    /\ lineBreaks text = 1%nat.
Proof.
  apply (one_text_line_per_record (fun _ => 0) sampleLog);
    repeat constructor.
Defined.

Example untrimmed_plate_breaks_line :
  detectedPlate (ui (answered CameraScannerTsx ("KA-01" +:+ newline)))
  = Some ("KA-01" +:+ newline)
  /\ (lineBreaks <$>
        ScanHistory.historyStr (fun _ => 0)
          [ {| id := 1; plateNumber := "KA-01" +:+ newline; timestamp := 0 |} ])
     = Some 1%nat.
Proof. vm_compute. split; reflexivity. Qed.

(** ** What the handlers leave alone *)

Lemma step_keeps_camera (c : component) (w : World) (e : event) :
  stream (ui (step c w e)) = stream (ui w)
  /\ videoRef (ui (step c w e)) = videoRef (ui w)
  /\ canvasRef (ui (step c w e)) = canvasRef (ui w).
Proof.
  destruct e as [ctx photo|o pick|fresh now|]; simpl.
  - destruct c; simpl;
      unfold CameraScanner.handleScan_start, UpperScanner.handleScan_start,
        DemoScanner.handleScan_start, FlippedScanner.handleScan_start;
      repeat match goal with |- context [if ?b then _ else _] => destruct b end;
      repeat split.
  - destruct (pending w); [repeat split|].
    unfold handleScan_resume.
    destruct c, o as [r|]; simpl;
      unfold CameraScanner.handleScan_then, UpperScanner.handleScan_then,
        DemoScanner.handleScan_then, FlippedScanner.handleScan_then;
      repeat match goal with |- context [if ?b then _ else _] => destruct b end;
      repeat split.
  - unfold savePlate. destruct (detectedPlate (ui w)) as [p|]; [|repeat split].
    destruct (JS.truthy p); repeat split.
  - repeat split.
Qed.

(** X18. No handler of the scanner touches the stream or the refs: whatever
    sequence of captures, answers, saves and redos runs, the component holds
    the stream it held before. In particular a stream, once set, is never
    dropped or replaced, and a component without one never gets one from
    its handlers. *)
Theorem handlers_keep_stream
    (c : component) (w : World) (es : list event) :
  stream (ui (run c w es)) = stream (ui w)
  /\ videoRef (ui (run c w es)) = videoRef (ui w)
  /\ canvasRef (ui (run c w es)) = canvasRef (ui w)
  /\ initializingShown (ui (run c w es)) = initializingShown (ui w).
Proof.
  revert w. induction es as [|e es IH]; intros w; [repeat split|].
  simpl. destruct (IH (step c w e)) as (S & V & K & _).
  destruct (step_keeps_camera c w e) as (S' & V' & K').
  unfold initializingShown. rewrite S, V, K, S', V', K'. repeat split.
Qed.

(** ** The notification and the card *)

Lemma append_inj_l (p a b : string) : p +:+ a = p +:+ b -> a = b.
Proof.
  induction p as [|c p IH]; [trivial|].
  change (String c (p +:+ a) = String c (p +:+ b) -> a = b).
  intros [= H]. now apply IH.
Qed.

(** X19. For an accepted answer every frame-capturing revision raises the
    "Plate Detected" notification with the answer as the flow returned it.
    In scan-history.tsx the card shows the upper-cased answer instead, so
    the notification and the card name the same string exactly when
    upper-casing leaves the answer as it is. *)
Theorem detected_notice_names_the_answer
    (c : component) (pick : nat) (plateNumber : string) (w : World) :
  c <> Part000 ->
  JS.trim plateNumber <> EmptyString ->
  pending w <> [] ->
  toasts (step c w (Settle (Fulfilled plateNumber) pick))
  = toasts w ++ [ {| title := "Plate Detected";
                     description := "Identified: " +:+ plateNumber;
                     destructive := false |} ]
  /\ detectedPlate (ui (step c w (Settle (Fulfilled plateNumber) pick)))
     = Some (staged_form c plateNumber)
  /\ ("Identified: " +:+ staged_form ScanHistoryTsx plateNumber
      = "Identified: " +:+ plateNumber
      <-> JS.toUpperCase plateNumber = plateNumber).
Proof.
  intros Hc B P. destruct (pending w) as [|q rest] eqn:E; [now destruct P|].
  split; [|split].
  - simpl step. rewrite E. unfold handleScan_resume.
    destruct c; [| | now destruct Hc |]; simpl;
      rewrite ?(nonblank_then_camera _ _ B), ?(nonblank_then_upper _ _ B),
        ?(nonblank_then_flipped _ _ B); reflexivity.
  - rewrite (settle_stages c pick _ w Hc) by (rewrite E; discriminate).
    apply not_blank_trim in B. now rewrite B.
  - simpl staged_form. split; [apply append_inj_l | now intros ->].
Qed.

Lemma detected_notice_names_the_answer_witness :
  toasts (answered ScanHistoryTsx "ka-01")
  = [ {| title := "Plate Detected"; description := "Identified: ka-01";
         destructive := false |} ]
  /\ detectedPlate (ui (answered ScanHistoryTsx "ka-01")) = Some "KA-01".
Proof.
  destruct (detected_notice_names_the_answer ScanHistoryTsx 0 "ka-01"
              (in_flight ScanHistoryTsx)) as (H1 & H2 & _).
  - discriminate.
  - discriminate.
  - discriminate.
  - split; [exact H1 | exact H2].
Defined.

(** ** The cleanup, given a stream *)

(** X20. The cleanup of the mount effect, run on a stream, stops every
    track of that stream and no other track; run on null it stops
    nothing. *)
Theorem cleanup_stops_the_tracks_it_is_given
    (s : MediaStream) (tr : Tracks) (t : nat) :
  Lifecycle.held s (Lifecycle.cleanup (Some s) tr) = []
  /\ (t ∈ s -> Lifecycle.cleanup (Some s) tr !! t = Some ended)
  /\ (t ∉ s -> Lifecycle.cleanup (Some s) tr !! t = tr !! t)
  /\ Lifecycle.cleanup None tr = tr.
Proof.
  split; [apply cleanup_of_stream_stops_all|].
  unfold Lifecycle.cleanup. rewrite mark_lookup.
  repeat split; intros H; case_decide; tauto.
Qed.

Lemma cleanup_stops_the_tracks_it_is_given_witness :
  Lifecycle.cleanup (Some [0%nat; 1%nat])
    {[ 0%nat := live; 1%nat := live; 2%nat := live ]} !! 1%nat = Some ended
  /\ Lifecycle.cleanup (Some [0%nat; 1%nat])
       {[ 0%nat := live; 1%nat := live; 2%nat := live ]} !! 2%nat = Some live.
Proof.
  split.
  - apply (cleanup_stops_the_tracks_it_is_given [0%nat; 1%nat]
             {[ 0%nat := live; 1%nat := live; 2%nat := live ]} 1%nat).
    right. left.
  - destruct (cleanup_stops_the_tracks_it_is_given [0%nat; 1%nat]
                {[ 0%nat := live; 1%nat := live; 2%nat := live ]} 2%nat)
      as (_ & _ & H & _).
    rewrite H; [vm_compute; reflexivity|].
    intros M. apply list_elem_of_In in M. simpl in M. lia.
Defined.

(* ================================================================== *)
(** * The stamp of a line and the timestamp of its record *)

(** ** The calendar fields are those of the day *)

Lemma all_from_spec (P : Z -> bool) (n : nat) (i : Z) :
  Bounded.all_from n i P = true ->
  forall j, i <= j < i + Z.of_nat n -> P j = true.
Proof.
  revert i. induction n as [|n IH]; intros i H j Hj; [lia|].
  cbn [Bounded.all_from] in H. destruct (P i) eqn:E; [|discriminate].
  destruct (Z.eq_dec j i) as [->|N]; [exact E|].
  apply (IH (i + 1) H). lia.
Qed.

Lemma months_checked :
  Bounded.all_from 365 0 (Bounded.month_ok false false) = true
  /\ Bounded.all_from 365 0 (Bounded.month_ok true false) = true
  /\ Bounded.all_from 366 0 (Bounded.month_ok false true) = true
  /\ Bounded.all_from 366 0 (Bounded.month_ok true true) = true.
Proof. vm_compute. repeat split. Qed.

Lemma years_checked : Bounded.all_from 400 0 Bounded.year_ok = true.
Proof. vm_compute. reflexivity. Qed.

Lemma month_checked (leapThis leapNext : bool) (doy : Z) :
  0 <= doy <= 364 + Bounded.flag leapNext ->
  Bounded.month_ok leapThis leapNext doy = true.
Proof.
  intros H. destruct months_checked as (A & B & C & D).
  destruct leapThis, leapNext; simpl in H;
    [apply (all_from_spec _ _ _ D) | apply (all_from_spec _ _ _ B)
     | apply (all_from_spec _ _ _ C) | apply (all_from_spec _ _ _ A)]; lia.
Qed.

Lemma DayFromYear_era (y k : Z) :
  Calendar.DayFromYear (y + 400 * k) = Calendar.DayFromYear y + 146097 * k.
Proof. unfold Calendar.DayFromYear. Z.div_mod_to_equations; lia. Qed.

Lemma isLeap_era (y k : Z) : Calendar.isLeap (y + 400 * k) = Calendar.isLeap y.
Proof.
  unfold Calendar.isLeap.
  replace ((y + 400 * k) mod 4) with (y mod 4)
    by (Z.div_mod_to_equations; lia).
  replace ((y + 400 * k) mod 100) with (y mod 100)
    by (Z.div_mod_to_equations; lia).
  replace ((y + 400 * k) mod 400) with (y mod 400)
    by (Z.div_mod_to_equations; lia).
  reflexivity.
Qed.

(** The year of the era and the day of that year, counted from 1 March. *)
Lemma year_of_era (doe : Z) :
  0 <= doe < 146097 ->
  let yoe := (doe - doe / 1460 + doe / 36524 - doe / 146096) / 365 in
  let doy := doe - (365 * yoe + yoe / 4 - yoe / 100) in
  0 <= yoe <= 399
  /\ 0 <= doy <= 364 + Bounded.flag (Calendar.isLeap (yoe + 1)).
Proof.
  intros H. cbv zeta.
  set (yoe := (doe - doe / 1460 + doe / 36524 - doe / 146096) / 365).
  set (doy := doe - (365 * yoe + yoe / 4 - yoe / 100)).
  assert (G : 0 <= yoe <= 399 /\ 0 <= doy
              /\ (doy <= 364
                  \/ (doy = 365 /\ (yoe + 1) mod 4 = 0
                      /\ ((yoe + 1) mod 100 <> 0 \/ yoe = 399))))
    by (subst doy yoe; Z.div_mod_to_equations; lia).
  destruct G as (Y & D0 & [D|(D & M4 & M)]).
  - split; [exact Y|]. destruct (Calendar.isLeap (yoe + 1)); simpl; lia.
  - split; [exact Y|].
    assert (L : Calendar.isLeap (yoe + 1) = true).
    { unfold Calendar.isLeap. rewrite M4. simpl.
      destruct M as [M| ->]; [|reflexivity].
      destruct (Z.eqb_spec ((yoe + 1) mod 100) 0); [contradiction|reflexivity]. }
    rewrite L. simpl. lia.
Qed.

Lemma civil_is_the_date (day : Z) :
  1 <= snd (fst (DateFns.civil day)) <= 12
  /\ 1 <= snd (DateFns.civil day)
     <= Calendar.daysInMonth (fst (fst (DateFns.civil day)))
          (snd (fst (DateFns.civil day)))
  /\ Calendar.dayNumber (fst (fst (DateFns.civil day)))
       (snd (fst (DateFns.civil day))) (snd (DateFns.civil day))
     = day.
Proof.
  unfold DateFns.civil. cbv zeta.
  set (era := (day + 719468) / 146097).
  set (doe := (day + 719468) mod 146097).
  assert (Hdoe : 0 <= doe < 146097) by (apply Z.mod_pos_bound; lia).
  assert (Hday : day = 146097 * era + doe - 719468)
    by (subst era doe; Z.div_mod_to_equations; lia).
  destruct (year_of_era doe Hdoe) as (Hy & Hd).
  set (yoe := (doe - doe / 1460 + doe / 36524 - doe / 146096) / 365) in *.
  set (doy := doe - (365 * yoe + yoe / 4 - yoe / 100)) in *.
  pose proof (month_checked (Calendar.isLeap yoe) (Calendar.isLeap (yoe + 1))
                doy Hd) as Mo.
  assert (Yo : Bounded.year_ok yoe = true)
    by (apply (all_from_spec _ _ _ years_checked); lia).
  unfold Bounded.month_ok in Mo. cbv zeta in Mo.
  unfold Bounded.year_ok in Yo.
  set (mp := (5 * doy + 2) / 153) in *.
  set (d := doy - (153 * mp + 2) / 5 + 1) in *.
  set (m := if mp <? 10 then mp + 3 else mp - 9) in *.
  cbn [fst snd].
  unfold Calendar.daysInMonth, Calendar.dayNumber.
  apply andb_true_iff in Yo. destruct Yo as (Y1 & Y2).
  apply Z.eqb_eq in Y1, Y2.
  repeat (apply andb_true_iff in Mo; destruct Mo as (Mo & ?)).
  repeat match goal with
         | H : (_ <=? _) = true |- _ => apply Z.leb_le in H
         | H : (_ =? _) = true |- _ => apply Z.eqb_eq in H
         end.
  destruct (Z.leb_spec m 2) as [Le|Gt].
  - replace (yoe + era * 400 + 1) with ((yoe + 1) + 400 * era) by lia.
    rewrite isLeap_era, DayFromYear_era. lia.
  - replace (yoe + era * 400) with (yoe + 400 * era) by lia.
    rewrite isLeap_era, DayFromYear_era. lia.
Qed.

(** ** The year text writes the year *)

Lemma digitValue_digit (d : Z) :
  0 <= d < 10 -> Stamp.digitValue (DateFns.digit d) = d.
Proof.
  intros H. unfold Stamp.digitValue, DateFns.digit.
  rewrite nat_ascii_embedding by lia. lia.
Qed.

Lemma numberFrom_app (a : Z) (s1 s2 : string) :
  Stamp.numberFrom a (s1 +:+ s2) = Stamp.numberFrom (Stamp.numberFrom a s1) s2.
Proof.
  revert a. induction s1 as [|c s1 IH]; intros a; [reflexivity|].
  change (String c s1 +:+ s2) with (String c (s1 +:+ s2)).
  cbn [Stamp.numberFrom]. apply IH.
Qed.

Lemma append_nil_r (s : string) : s +:+ EmptyString = s.
Proof.
  induction s as [|c s IH]; [reflexivity|].
  exact (f_equal (String c) IH).
Qed.

(** [toDigits] puts the digits of [n] before [acc]. *)
Lemma toDigits_number (fuel : nat) (n : Z) (acc : string) :
  0 <= n < 2 ^ Z.of_nat fuel ->
  exists front p,
    DateFns.toDigits fuel n acc = front +:+ acc
    /\ forall a, Stamp.numberFrom a front = a * p + n.
Proof.
  revert n acc. induction fuel as [|fuel IH]; intros n acc H.
  - exists EmptyString, 1. split; [reflexivity|].
    intros a. simpl in *. lia.
  - cbn [DateFns.toDigits].
    rewrite Nat2Z.inj_succ, Z.pow_succ_r in H by lia.
    destruct (Z.eqb_spec (n / 10) 0) as [E|E].
    + exists (String (DateFns.digit (n mod 10)) EmptyString), 10.
      split; [reflexivity|]. intros a. cbn [Stamp.numberFrom].
      rewrite digitValue_digit by (apply Z.mod_pos_bound; lia).
      Z.div_mod_to_equations; lia.
    + destruct (IH (n / 10) (String (DateFns.digit (n mod 10)) acc))
        as (front & p & T & N).
      { Z.div_mod_to_equations; lia. }
      exists (front +:+ String (DateFns.digit (n mod 10)) EmptyString), (10 * p).
      split.
      * rewrite T, append_assoc. reflexivity.
      * intros a. rewrite numberFrom_app, N. cbn [Stamp.numberFrom].
        rewrite digitValue_digit by (apply Z.mod_pos_bound; lia).
        Z.div_mod_to_equations; lia.
Qed.

Lemma digit_not_zero (d : Z) :
  0 < d < 10 -> Ascii.eqb (DateFns.digit d) (ascii_of_nat 48) = false.
Proof.
  intros H. destruct (Ascii.eqb_spec (DateFns.digit d) (ascii_of_nat 48)) as [E|];
    [|reflexivity].
  apply (f_equal Stamp.digitValue) in E.
  rewrite digitValue_digit in E by lia. vm_compute in E. lia.
Qed.

Lemma toDigits_leading (fuel : nat) (n : Z) (acc : string) :
  0 < n < 2 ^ Z.of_nat fuel ->
  Stamp.leadingZero (DateFns.toDigits fuel n acc) = false.
Proof.
  revert n acc. induction fuel as [|fuel IH]; intros n acc H.
  - simpl in H. lia.
  - cbn [DateFns.toDigits].
    rewrite Nat2Z.inj_succ, Z.pow_succ_r in H by lia.
    destruct (Z.eqb_spec (n / 10) 0) as [E|E].
    + cbn [Stamp.leadingZero]. apply digit_not_zero.
      Z.div_mod_to_equations; lia.
    + apply IH. Z.div_mod_to_equations; lia.
Qed.

Lemma toString_fuel (n : Z) :
  0 <= n -> n < 2 ^ Z.of_nat (S (Z.to_nat (Z.log2 n))).
Proof.
  intros H. rewrite Nat2Z.inj_succ, Z2Nat.id by apply Z.log2_nonneg.
  destruct (Z.eq_dec n 0) as [->|N]; [reflexivity|].
  apply Z.log2_spec. lia.
Qed.

Lemma zeros_number (k : nat) (s : string) :
  Stamp.number (DateFns.zeros k s) = Stamp.number s.
Proof.
  unfold Stamp.number. induction k as [|k IH]; [reflexivity|].
  cbn [DateFns.zeros Stamp.numberFrom]. exact IH.
Qed.

Lemma yyyy_writes_year (signedYear : Z) :
  Stamp.number (DateFns.yyyy signedYear)
  = (if 0 <? signedYear then signedYear else 1 - signedYear)
  /\ (String.length (DateFns.yyyy signedYear) = 4%nat
      \/ ((4 < String.length (DateFns.yyyy signedYear))%nat
          /\ Stamp.leadingZero (DateFns.yyyy signedYear) = false)).
Proof.
  unfold DateFns.yyyy, DateFns.addLeadingZeros, DateFns.padStart.
  set (year := if 0 <? signedYear then signedYear else 1 - signedYear).
  assert (Y : 0 < year) by (subst year; destruct (Z.ltb_spec 0 signedYear); lia).
  destruct (Z.ltb_spec year 0) as [N|_]; [lia|].
  change (EmptyString +:+ ?s) with s.
  rewrite (Z.abs_eq year) by lia.
  split.
  - rewrite zeros_number. unfold DateFns.toString, Stamp.number.
    destruct (toDigits_number _ year EmptyString
                (conj (Z.lt_le_incl _ _ Y) (toString_fuel year (Z.lt_le_incl _ _ Y))))
      as (front & p & T & N).
    rewrite T, append_nil_r, N. lia.
  - rewrite zeros_length.
    destruct (Nat.le_gt_cases (String.length (DateFns.toString year)) 4) as [L|G].
    + left. lia.
    + right. replace (4 - String.length (DateFns.toString year))%nat with 0%nat
        by lia.
      split; [simpl; lia|]. cbn [DateFns.zeros]. unfold DateFns.toString.
      apply toDigits_leading. split; [exact Y | apply toString_fuel; lia].
Qed.

Lemma Calendar_month_bound (y m : Z) : Calendar.daysInMonth y m <= 31.
Proof.
  unfold Calendar.daysInMonth, Calendar.monthLength.
  destruct (m =? 2); [destruct (Calendar.isLeap y); lia|].
  destruct ((m =? 4) || (m =? 6) || (m =? 9) || (m =? 11)); lia.
Qed.

(** ** The stamp is that of the timestamp *)

Lemma time_of_day (L : Z) :
  (L / 86400000) * 86400 + ((L / 3600000) mod 24) * 3600
  + ((L / 60000) mod 60) * 60 + (L / 1000) mod 60
  = L / 1000.
Proof.
  change 86400000 with (1000 * 86400).
  change 3600000 with (1000 * 3600).
  change 60000 with (1000 * 60).
  rewrite <- !Z.div_div by lia.
  set (S := L / 1000). Z.div_mod_to_equations; lia.
Qed.

Lemma format_isStampOf (LocalTZA : Z -> Z) (t : Z) :
  DateFns.isValid t = true ->
  exists stamp,
    DateFns.format LocalTZA t = Some stamp
    /\ Stamp.isStampOf (DateFns.LocalTime LocalTZA t) stamp.
Proof.
  intros V. unfold DateFns.format. rewrite V. eexists. split; [reflexivity|].
  set (L := DateFns.LocalTime LocalTZA t).
  destruct (civil_is_the_date (L / DateFns.msPerDay)) as (M & D & N).
  destruct (yyyy_shape (DateFns.getFullYear LocalTZA t)) as (Y1 & _).
  destruct (yyyy_writes_year (DateFns.getFullYear LocalTZA t)) as (Y3 & Y4).
  exists (DateFns.yyyy (DateFns.getFullYear LocalTZA t)),
    (DateFns.getFullYear LocalTZA t),
    (DateFns.getMonth LocalTZA t + 1), (DateFns.getDate LocalTZA t),
    (DateFns.getHours LocalTZA t), (DateFns.getMinutes LocalTZA t),
    (DateFns.getSeconds LocalTZA t).
  unfold DateFns.getFullYear, DateFns.getMonth, DateFns.getDate,
    DateFns.getHours, DateFns.getMinutes, DateFns.getSeconds in *.
  fold L in Y1, Y3, Y4 |- *.
  assert (Hh := Z.mod_pos_bound (L / 3600000) 24).
  assert (Hm := Z.mod_pos_bound (L / 60000) 60).
  assert (Hs := Z.mod_pos_bound (L / 1000) 60).
  pose proof (Calendar_month_bound (fst (fst (DateFns.civil (L / DateFns.msPerDay))))
                (snd (fst (DateFns.civil (L / DateFns.msPerDay))))) as B.
  replace (snd (fst (DateFns.civil (L / DateFns.msPerDay))) - 1 + 1)
    with (snd (fst (DateFns.civil (L / DateFns.msPerDay)))) by lia.
  rewrite !addLeadingZeros_two by lia.
  repeat split; try assumption; try lia.
  unfold Calendar.seconds. rewrite N. unfold DateFns.msPerDay.
  apply time_of_day.
Qed.

(** ** The text for the summary, line by line *)

Lemma line_isLineOf (LocalTZA : Z -> Z) (r : ScanResult) :
  DateFns.isValid (timestamp r) = true ->
  exists l, ScanHistory.line LocalTZA r = Some l /\ Stamp.isLineOf LocalTZA r l.
Proof.
  intros V. destruct (format_isStampOf LocalTZA _ V) as (stamp & F & I).
  exists (plateNumber r +:+ " at " +:+ stamp). split.
  - unfold ScanHistory.line. now rewrite F.
  - now exists stamp.
Qed.

Lemma lines_of_exist (LocalTZA : Z -> Z) (log : list ScanResult) :
  Forall (fun r => DateFns.isValid (timestamp r) = true) log ->
  exists lines,
    Forall2 (fun r l => ScanHistory.line LocalTZA r = Some l) log lines
    /\ Forall2 (Stamp.isLineOf LocalTZA) log lines.
Proof.
  induction 1 as [|r log V _ (lines & L & I)].
  - exists []. split; constructor.
  - destruct (line_isLineOf LocalTZA r V) as (l & Hl & Il).
    exists (l :: lines). split; constructor; assumption.
Qed.

Lemma isStampOf_no_break (L : Z) (stamp : string) :
  Stamp.isStampOf L stamp -> lineBreaks stamp = 0%nat.
Proof.
  intros (year & y & mo & d & h & mi & sec & -> & Y & _ & _ & ? & ? & ? & ? & ? & _).
  pose proof (Calendar_month_bound y mo).
  rewrite !lineBreaks_app, (digits_no_break year Y), !two_no_break by lia.
  reflexivity.
Qed.

(** C9, as amended. For a History Log of valid timestamps, the text built
    for the summary is the join by newlines of one entry per record, in the
    order of the log. The entry of a record is its plate, [" at "] and the
    stamp [yyyy-MM-dd HH:mm:ss] of that record's own timestamp: the date of
    the calendar and the time of day that, in local time, are the second the
    timestamp falls in. When no plate holds a line break the text has
    exactly one text line per record. A record added at the end of the log
    gets its entry last, so the oldest record comes first. On a log that is
    not empty this text is what is handed to [summarizeScanHistory]. *)
Theorem history_text_follows_the_log
    (LocalTZA : Z -> Z) (log : list ScanResult) :
  Forall (fun r => DateFns.isValid (timestamp r) = true) log ->
  exists lines,
    ScanHistory.historyStr LocalTZA log = Some (JS.join newline lines)
    /\ Forall2 (Stamp.isLineOf LocalTZA) log lines
    /\ (Forall (fun r => lineBreaks (plateNumber r) = 0%nat) log ->
        lineBreaks (JS.join newline lines) = (length log - 1)%nat)
    /\ (forall r, DateFns.isValid (timestamp r) = true ->
          exists l,
            Stamp.isLineOf LocalTZA r l
            /\ ScanHistory.historyStr LocalTZA (log ++ [r])
               = Some (JS.join newline (lines ++ [l]))
            /\ (log <> [] ->
                JS.join newline (lines ++ [l])
                = JS.join newline lines +:+ newline +:+ l))
    /\ (forall w, log <> [] ->
          ScanHistory.calls
            (ScanHistory.handleGenerateSummary_start LocalTZA log w)
          = ScanHistory.calls w ++ [JS.join newline lines]).
Proof.
  intros V. destruct (lines_of_exist LocalTZA log V) as (lines & L & I).
  assert (M : mapM (ScanHistory.line LocalTZA) log = Some lines)
    by now apply mapM_Some_2.
  assert (H : ScanHistory.historyStr LocalTZA log
              = Some (JS.join newline lines))
    by (unfold ScanHistory.historyStr; now rewrite M).
  exists lines. split; [exact H|]. split; [exact I|]. split; [|split].
  - intros B. rewrite (Forall2_length _ _ _ I). apply join_lineBreaks.
    clear L M H V. induction I as [|r l log lines (stamp & -> & S) I IH];
      [constructor|].
    inversion B as [|? ? Br B']; subst.
    constructor; [|now apply IH].
    rewrite !lineBreaks_app, Br, (isStampOf_no_break _ stamp S). reflexivity.
  - intros r Vr. destruct (line_isLineOf LocalTZA r Vr) as (l & Hl & Il).
    exists l. split; [exact Il|]. split.
    + unfold ScanHistory.historyStr.
      rewrite (mapM_Some_2 _ (log ++ [r]) (lines ++ [l])); [reflexivity|].
      apply Forall2_app; [exact L|]. now constructor.
    + intros N. apply join_snoc. intros ->.
      apply Forall2_length in I. destruct log; [now destruct N|].
      discriminate I.
  - intros w N. unfold ScanHistory.handleGenerateSummary_start.
    destruct log as [|r rest]; [now destruct N|].
    change (length (r :: rest) =? 0)%nat with false. cbv iota. now rewrite H.
Qed.

Lemma history_text_follows_the_log_witness :
  exists lines,
    ScanHistory.historyStr (fun _ => 0) sampleLog = Some (JS.join newline lines)
    /\ Forall2 (Stamp.isLineOf (fun _ => 0)) sampleLog lines
    /\ lineBreaks (JS.join newline lines) = 1%nat.
Proof.
  destruct (history_text_follows_the_log (fun _ => 0) sampleLog)
    as (lines & H & I & B & _).
  - repeat constructor.
  - exists lines. split; [exact H|]. split; [exact I|].
    apply B. repeat constructor.
Defined.

(** C9, as stated, fails on a plate that holds a line break. The scanner
    stages the answer untrimmed and Save puts it in the log; the text for
    that log of one record has a line break, so two text lines. *)
Lemma plate_with_line_break_spans_two_lines :
  detectedPlate (ui (answered CameraScannerTsx brokenPlate)) = Some brokenPlate
  /\ brokenLog
     = [ {| id := 1; plateNumber := brokenPlate; timestamp := 1700000000000 |} ]
  /\ ScanHistory.historyStr (fun _ => 0) brokenLog
     = Some ("KA-01" +:+ newline +:+ " at 2023-11-14 22:13:20")
  /\ ~ (exists text,
          ScanHistory.historyStr (fun _ => 0) brokenLog = Some text
          /\ lineBreaks text = (length brokenLog - 1)%nat).
Proof.
  split; [reflexivity|]. split; [reflexivity|].
  split; [vm_compute; reflexivity|].
  intros (text & H & B).
  assert (E : ScanHistory.historyStr (fun _ => 0) brokenLog
              = Some ("KA-01" +:+ newline +:+ " at 2023-11-14 22:13:20"))
    by (vm_compute; reflexivity).
  rewrite E in H. injection H as <-. vm_compute in B. discriminate B.
Qed.
